(** * Authentication and credential lifecycle of the student backend

    A shallow embedding of [middleware/auth.js], [routes/auth.js] and
    [models/Student.js]: the bearer-token middleware, the register, login,
    change-password and logout handlers, the Student schema with its
    pre-save hashing hook and [comparePassword].

    Conventions.
    - JavaScript strings are byte strings; case mapping and white space are
      those of ASCII.  A request field is [undefined] ([None]) or a string;
      [skills] may also be an array of strings.
    - [async] handlers are run to completion one request at a time, so a
      handler is a function from the store to a response and a new store.
    - A [throw] is the [Throw] constructor of [Result]; [try]/[catch] is
      [try_catch] or a [match] on the result of the [try] block.
    - [bcryptjs] and [jsonwebtoken] are fields of [Libraries], and so are
      the validators of the profile paths, the text of the driver's
      duplicate-key error and the cast of a value to an ObjectId.  The clock, the salt generator and the ObjectId
      generator supply their values with each request, in [Env].
    - Mongoose is modelled as far as the handlers use it: setters run on
      assignment and on query filters; [save] validates, runs the pre-save
      hook and writes; an assignment of an equal value marks no path
      modified; [timestamps: true] maintains [createdAt] and [updatedAt]. *)

From Stdlib Require Import Bool Arith ZArith List Ascii String Lia.
Import ListNotations.
Open Scope list_scope.
Open Scope string_scope.
Open Scope nat_scope.

(** ** JavaScript strings *)

Module Js.

Definition isUpper (c : ascii) : bool :=
  let n := nat_of_ascii c in (65 <=? n) && (n <=? 90).

Definition lowerChar (c : ascii) : ascii :=
  if isUpper c then ascii_of_nat (nat_of_ascii c + 32) else c.

(** [String.prototype.toLowerCase] *)
Fixpoint toLowerCase (s : string) : string :=
  match s with
  | EmptyString => EmptyString
  | String c r => String (lowerChar c) (toLowerCase r)
  end.

(** White space as [trim] and the regular expression class [\s] see it:
    tab, line feed, vertical tab, form feed, carriage return, space. *)
Definition isSpace (c : ascii) : bool :=
  let n := nat_of_ascii c in ((9 <=? n) && (n <=? 13)) || (n =? 32).

Fixpoint trimStart (s : string) : string :=
  match s with
  | EmptyString => EmptyString
  | String c r => if isSpace c then trimStart r else s
  end.

Fixpoint trimEnd (s : string) : string :=
  match s with
  | EmptyString => EmptyString
  | String c r =>
      match trimEnd r with
      | EmptyString => if isSpace c then EmptyString else String c EmptyString
      | r' => String c r'
      end
  end.

(** [String.prototype.trim] *)
Definition trim (s : string) : string := trimEnd (trimStart s).

Fixpoint drop (n : nat) (s : string) : string :=
  match n, s with
  | O, _ => s
  | S _, EmptyString => EmptyString
  | S m, String _ r => drop m r
  end.

(** [s.replace(pat, rep)] with a string pattern: the first occurrence of
    [pat] in [s], wherever it starts, is replaced; a string without an
    occurrence is returned as it is. *)
Fixpoint replace (pat rep s : string) : string :=
  if prefix pat s then rep ++ drop (length pat) s
  else match s with
       | EmptyString => EmptyString
       | String c r => String c (replace pat rep r)
       end.

(** [s.includes(pat)] *)
Fixpoint includes (pat s : string) : bool :=
  prefix pat s ||
  match s with
  | EmptyString => false
  | String _ r => includes pat r
  end.

(** [s.split(sep)] for a one-character separator. *)
Fixpoint split (sep : ascii) (s : string) : list string :=
  match s with
  | EmptyString => [EmptyString]
  | String c r =>
      if Ascii.eqb c sep then EmptyString :: split sep r
      else match split sep r with
           | [] => [String c EmptyString]
           | h :: t => String c h :: t
           end
  end.

Fixpoint toList (s : string) : list ascii :=
  match s with
  | EmptyString => []
  | String c r => c :: toList r
  end.

(** [/^\S+@\S+\.\S+$/.test(s)]: no white space anywhere, an [@] after at
    least one character, and a dot at least two places after it that is not
    the last character. *)
Definition matchesEmail (s : string) : bool :=
  let cs := toList s in
  let n := List.length cs in
  forallb (fun c => negb (isSpace c)) cs &&
  existsb (fun i =>
    Ascii.eqb (nth i cs "000"%char) "@"%char &&
    existsb (fun j => Ascii.eqb (nth j cs "000"%char) "."%char)
            (seq (i + 2) (n - 1 - (i + 2))))
    (seq 1 (n - 1)).

(** A thrown value: [error.name], [error.message] and, for a Mongoose
    [ValidationError], the messages of [error.errors]. *)
Record Error := mkError {
  name : string;
  message : string;
  errors : list string
}.

Inductive Result (A : Type) : Type :=
| Ok (a : A)
| Throw (e : Error).
Arguments Ok {A} a.
Arguments Throw {A} e.

Definition bind {A B} (r : Result A) (k : A -> Result B) : Result B :=
  match r with
  | Ok a => k a
  | Throw e => Throw e
  end.

(** [try { body } catch (error) { handler }] *)
Definition try_catch {A} (body : Result A) (handler : Error -> Result A)
  : Result A :=
  match body with
  | Ok a => Ok a
  | Throw e => handler e
  end.

Definition threw {A} (r : Result A) : bool :=
  match r with Ok _ => false | Throw _ => true end.

(** [!v] for a value that is [undefined] or a string. *)
Definition falsy (v : option string) : bool :=
  match v with
  | None => true
  | Some s => String.eqb s ""
  end.

(** [a || b] on such values, [b] being a non-empty literal. *)
Definition orElse (v : option string) (dflt : string) : string :=
  match v with
  | Some s => if String.eqb s "" then dflt else s
  | None => dflt
  end.

End Js.

(** ** JSON bodies and responses *)

Unset Elimination Schemes.
Inductive Json : Type :=
| JNull
| JBool (b : bool)
| JNum (z : Z)
| JStr (s : string)
| JArr (items : list Json)
| JObj (fields : list (string * Json)).
Set Elimination Schemes.

(** [res.status(status).json(body)]; [res.json(body)] sends status 200. *)
Record Response := mkResponse {
  status : nat;
  body : Json
}.

Definition failure (code : nat) (msg : string) : Response :=
  mkResponse code (JObj [("success", JBool false); ("message", JStr msg)]).

Definition failureWith (code : nat) (msg : string) (e : Js.Error) : Response :=
  mkResponse code (JObj [("success", JBool false); ("message", JStr msg);
                         ("error", JStr (Js.message e))]).

(** ** models/Student.js *)

Definition ObjectId := string.
(** A [Date], in milliseconds since the epoch. *)
Definition Date := Z.

Record PersonalInfo := mkPersonalInfo {
  address : option string;
  gender : option string;
  dateOfBirth : option string;
  mobileNo : option string
}.

Record Education := mkEducation {
  courseName : option string;
  college : option string;
  edu_from : option string;
  edu_to : option string
}.

Record Certification := mkCertification {
  title : option string;
  specifications : option string;
  description : option string
}.

Record Training := mkTraining {
  tr_title : option string;
  tr_company : option string;
  tr_from : option string;
  tr_to : option string;
  tr_description : option string
}.

(** The object the register handler hands to [new Student(...)]. *)
Module StudentData.
Record t := mk {
  email : option string;
  password : option string;
  fullName : option string;
  personalInfo : PersonalInfo;
  education : list Education;
  skills : list string;
  coursesAndCertifications : list Certification;
  trainingAndInternships : list Training
}.
End StudentData.

(** A stored student: the paths of [studentSchema], [_id], and the
    [createdAt] and [updatedAt] paths that [timestamps: true] adds. *)
Record Student := mkStudent {
  _id : ObjectId;
  email : string;
  password : string;
  fullName : string;
  userType : string;
  profileImage : option string;
  personalInfo : PersonalInfo;
  education : list Education;
  skills : list string;
  coursesAndCertifications : list Certification;
  trainingAndInternships : list Training;
  passwordChangedAt : option Date;
  passwordResetToken : option string;
  passwordResetExpires : option Date;
  lastLoginAt : option Date;
  lastLogoutAt : option Date;
  createdAt : Date;
  updatedAt : Date
}.

Definition set_password (v : string) (s : Student) : Student :=
  mkStudent (_id s) (email s) v (fullName s) (userType s) (profileImage s)
    (personalInfo s) (education s) (skills s) (coursesAndCertifications s)
    (trainingAndInternships s) (passwordChangedAt s) (passwordResetToken s)
    (passwordResetExpires s) (lastLoginAt s) (lastLogoutAt s) (createdAt s)
    (updatedAt s).

Definition set_passwordChangedAt (v : option Date) (s : Student) : Student :=
  mkStudent (_id s) (email s) (password s) (fullName s) (userType s)
    (profileImage s) (personalInfo s) (education s) (skills s)
    (coursesAndCertifications s) (trainingAndInternships s) v
    (passwordResetToken s) (passwordResetExpires s) (lastLoginAt s)
    (lastLogoutAt s) (createdAt s) (updatedAt s).

Definition set_lastLoginAt (v : option Date) (s : Student) : Student :=
  mkStudent (_id s) (email s) (password s) (fullName s) (userType s)
    (profileImage s) (personalInfo s) (education s) (skills s)
    (coursesAndCertifications s) (trainingAndInternships s)
    (passwordChangedAt s) (passwordResetToken s) (passwordResetExpires s) v
    (lastLogoutAt s) (createdAt s) (updatedAt s).

Definition set_lastLogoutAt (v : option Date) (s : Student) : Student :=
  mkStudent (_id s) (email s) (password s) (fullName s) (userType s)
    (profileImage s) (personalInfo s) (education s) (skills s)
    (coursesAndCertifications s) (trainingAndInternships s)
    (passwordChangedAt s) (passwordResetToken s) (passwordResetExpires s)
    (lastLoginAt s) v (createdAt s) (updatedAt s).

Definition set_updatedAt (v : Date) (s : Student) : Student :=
  mkStudent (_id s) (email s) (password s) (fullName s) (userType s)
    (profileImage s) (personalInfo s) (education s) (skills s)
    (coursesAndCertifications s) (trainingAndInternships s)
    (passwordChangedAt s) (passwordResetToken s) (passwordResetExpires s)
    (lastLoginAt s) (lastLogoutAt s) (createdAt s) v.

(** The students collection, in insertion order. *)
Definition Store := list Student.

(** ** What the handlers call and do not define *)

(** The payload the handlers sign. *)
Record Claims := mkClaims {
  c_userId : ObjectId;
  c_email : string
}.

(** What [jwt.verify] returns: the payload of the token.  [userId] is the
    string the payload carries, an ObjectId or not.  [iat] and [exp] are
    [None] when the token carries no such number. *)
Record Decoded := mkDecoded {
  userId : string;
  d_email : string;
  iat : option Z;
  exp : option Z
}.

Record Libraries := mkLibraries {
  (** [bcrypt.hash(s, salt)] *)
  bcrypt_hash : string -> string -> Js.Result string;
  (** [bcrypt.compare(s, hash)] *)
  bcrypt_compare : string -> string -> Js.Result bool;
  (** [jwt.sign(payload, secret, { expiresIn: '7d' })] at a clock reading *)
  jwt_sign : Claims -> string -> Date -> string;
  (** [jwt.verify(token, secret)] at a clock reading *)
  jwt_verify : string -> string -> Date -> Js.Result Decoded;
  (** Mongoose's validators for the paths below [fullName] in the schema:
      the failing paths, each with its message *)
  validateProfile : PersonalInfo -> list Education -> list string ->
                    list Certification -> list Training ->
                    list (string * string);
  (** the message of the driver's E11000 error for a document *)
  duplicateKeyMessage : Student -> string;
  (** Mongoose's cast of the value given for [_id] in a query to an
      ObjectId, which throws a [CastError] on a value that is none *)
  castToObjectId : string -> Js.Result ObjectId
}.

(** What the environment supplies to a request: [new Date()] ([Date.now()]
    for the token), the result of [bcrypt.genSalt(10)], and the ObjectId a
    new document is given. *)
Record Env := mkEnv {
  now : Date;
  salt : string;
  freshId : ObjectId
}.

(** [process.env] *)
Record Config := mkConfig {
  JWT_SECRET : option string
}.

(** ** The schema's setters, validators, hook and methods *)

(** The setters of the [email] path, [lowercase: true] and [trim: true].
    Mongoose runs a path's setters on a value assigned to a document and on
    a value given for that path in a query filter. *)
Definition castEmail (v : string) : string := Js.trim (Js.toLowerCase v).

Definition applySetters (d : StudentData.t) : StudentData.t :=
  StudentData.mk
    (option_map castEmail (StudentData.email d))
    (StudentData.password d)
    (option_map Js.trim (StudentData.fullName d))
    (StudentData.personalInfo d) (StudentData.education d)
    (StudentData.skills d) (StudentData.coursesAndCertifications d)
    (StudentData.trainingAndInternships d).

(** The validators of [email], [password] and [fullName]; each yields the
    failing path with its message. *)
Definition validateEmail (v : option string) : list (string * string) :=
  if Js.falsy v then [("email", "Email is required")]
  else match v with
       | Some s => if Js.matchesEmail s then []
                   else [("email", "Please provide a valid email")]
       | None => []
       end.

Definition validatePassword (v : option string) : list (string * string) :=
  if Js.falsy v then [("password", "Password is required")]
  else match v with
       | Some s => if length s <? 6
                   then [("password", "Password must be at least 6 characters")]
                   else []
       | None => []
       end.

Definition validateFullName (v : option string) : list (string * string) :=
  if Js.falsy v then [("fullName", "Full name is required")] else [].

(** Document validation, in the order of the schema's paths. *)
Definition validate (lib : Libraries) (d : StudentData.t)
  : list (string * string) :=
  (validateEmail (StudentData.email d) ++
   validatePassword (StudentData.password d) ++
   validateFullName (StudentData.fullName d) ++
   validateProfile lib (StudentData.personalInfo d) (StudentData.education d)
     (StudentData.skills d) (StudentData.coursesAndCertifications d)
     (StudentData.trainingAndInternships d))%list.

Fixpoint joinMessages (errs : list (string * string)) : string :=
  match errs with
  | [] => ""
  | [(p, m)] => p ++ ": " ++ m
  | (p, m) :: rest => p ++ ": " ++ m ++ ", " ++ joinMessages rest
  end.

Definition validationError (errs : list (string * string)) : Js.Error :=
  Js.mkError "ValidationError"
    ("Student validation failed: " ++ joinMessages errs) (map snd errs).

(** [studentSchema.pre('save', ...)]: returns the value [this.password]
    holds when the hook is done, or the error handed to [next]. *)
Definition preSaveHook (lib : Libraries) (env : Env)
    (isModifiedPassword : bool) (this_password : string) : Js.Result string :=
  if negb isModifiedPassword then Js.Ok this_password
  else
    Js.try_catch
      (let salt := salt env in
       Js.bind (bcrypt_hash lib this_password salt)
               (fun hashedPassword => Js.Ok hashedPassword))
      (fun error => Js.Throw error).

(** [studentSchema.methods.comparePassword] *)
Definition comparePassword (lib : Libraries) (this : Student)
    (candidatePassword : string) : Js.Result bool :=
  Js.try_catch
    (Js.bind (bcrypt_compare lib candidatePassword (password this))
             (fun isMatch => Js.Ok isMatch))
    (fun _ => Js.Ok false).

(** ** Queries and writes *)

(** [Student.findOne({ email })]: the filter value is cast by the path's
    setters; an [undefined] value matches no student, every student having
    an email. *)
Definition findOne (st : Store) (email_filter : option string)
  : option Student :=
  match email_filter with
  | None => None
  | Some v => find (fun s => String.eqb (email s) (castEmail v)) st
  end.

(** [Student.findById(id)], past the cast of [id] *)
Definition findById (st : Store) (id : ObjectId) : option Student :=
  find (fun s => String.eqb (_id s) id) st.

Fixpoint updateFirst (p : Student -> bool) (f : Student -> Student)
    (st : Store) : Store :=
  match st with
  | [] => []
  | s :: rest => if p s then f s :: rest else s :: updateFirst p f rest
  end.

(** [Student.findByIdAndUpdate(id, { lastLogoutAt })], past the cast of
    [id]: no validation and no save hook; the schema's timestamps add
    [updatedAt] to the update. *)
Definition findByIdAndUpdate_lastLogoutAt (st : Store) (id : ObjectId)
    (env : Env) : Store :=
  updateFirst (fun s => String.eqb (_id s) id)
    (fun s => set_updatedAt (now env) (set_lastLogoutAt (Some (now env)) s))
    st.

(** The insert of a new document under the unique indexes on [_id] and
    [email]. *)
Definition insertOne (lib : Libraries) (s : Student) (st : Store)
  : Js.Result Store :=
  if existsb (fun x => String.eqb (_id x) (_id s) ||
                       String.eqb (email x) (email s)) st
  then Js.Throw (Js.mkError "MongoServerError" (duplicateKeyMessage lib s) [])
  else Js.Ok (st ++ [s])%list.

(** [new Student(studentData)] followed by [save()]: setters, validation,
    the pre-save hook (the password of a new document counts as modified),
    the timestamps, the insert. *)
Definition create (lib : Libraries) (env : Env) (st : Store)
    (studentData : StudentData.t) : Js.Result (Student * Store) :=
  let d := applySetters studentData in
  match validate lib d,
        StudentData.email d, StudentData.password d, StudentData.fullName d
  with
  | [], Some e, Some p, Some n =>
      Js.bind (preSaveHook lib env true p) (fun pw =>
        let s := mkStudent (freshId env) e pw n "student" None
                   (StudentData.personalInfo d) (StudentData.education d)
                   (StudentData.skills d)
                   (StudentData.coursesAndCertifications d)
                   (StudentData.trainingAndInternships d)
                   None None None None None (now env) (now env) in
        Js.bind (insertOne lib s st) (fun st' => Js.Ok (s, st')))
  | errs, _, _, _ => Js.Throw (validationError errs)
  end.

(** A document loaded by a query: its present values and the paths marked
    modified.  An assignment of the value a path already has marks
    nothing. *)
Record Document := mkDocument {
  doc : Student;
  modifiedPaths : list string
}.

Definition load (s : Student) : Document := mkDocument s [].

Definition isModified (path : string) (d : Document) : bool :=
  existsb (String.eqb path) (modifiedPaths d).

Definition eqb_date (a b : option Date) : bool :=
  match a, b with
  | Some x, Some y => Z.eqb x y
  | None, None => true
  | _, _ => false
  end.

Definition assign_password (v : string) (d : Document) : Document :=
  if String.eqb v (password (doc d)) then d
  else mkDocument (set_password v (doc d)) ("password" :: modifiedPaths d).

Definition assign_passwordChangedAt (v : Date) (d : Document) : Document :=
  if eqb_date (Some v) (passwordChangedAt (doc d)) then d
  else mkDocument (set_passwordChangedAt (Some v) (doc d))
                  ("passwordChangedAt" :: modifiedPaths d).

Definition assign_lastLoginAt (v : Date) (d : Document) : Document :=
  if eqb_date (Some v) (lastLoginAt (doc d)) then d
  else mkDocument (set_lastLoginAt (Some v) (doc d))
                  ("lastLoginAt" :: modifiedPaths d).

Definition dataOf (s : Student) : StudentData.t :=
  StudentData.mk (Some (email s)) (Some (password s)) (Some (fullName s))
    (personalInfo s) (education s) (skills s) (coursesAndCertifications s)
    (trainingAndInternships s).

(** [save()] on a loaded document: validation, the pre-save hook, then the
    write of the modified paths, with [updatedAt], to the stored document of
    the same [_id].  With no path modified nothing is written. *)
Definition save (lib : Libraries) (env : Env) (st : Store) (d : Document)
  : Js.Result (Student * Store) :=
  match validate lib (dataOf (doc d)) with
  | [] =>
      Js.bind (preSaveHook lib env (isModified "password" d)
                 (password (doc d)))
        (fun pw =>
           let s := set_password pw (doc d) in
           match modifiedPaths d with
           | [] => Js.Ok (s, st)
           | _ :: _ =>
               let s' := set_updatedAt (now env) s in
               Js.Ok (s', updateFirst (fun x => String.eqb (_id x) (_id s'))
                                      (fun _ => s') st)
           end)
  | errs => Js.Throw (validationError errs)
  end.

(** ** middleware/auth.js *)

Definition JWT_SECRET_middleware (cfg : Config) : string :=
  Js.orElse (JWT_SECRET cfg) "your-secret-key-change-this-in-production".

(** The largest time value of a [Date], in milliseconds. *)
Definition maxTimeValue : Z := 8640000000000000.

(** [new Date(seconds * 1000).toISOString()], which throws a [RangeError]
    on an invalid date: [seconds] is not a number, or the product is beyond
    the range of time values.  The string itself is only logged. *)
Definition toISOString (seconds : option Z) : Js.Result unit :=
  match seconds with
  | Some s =>
      if (Z.abs (s * 1000) <=? maxTimeValue)%Z then Js.Ok tt
      else Js.Throw (Js.mkError "RangeError" "Invalid time value" [])
  | None => Js.Throw (Js.mkError "RangeError" "Invalid time value" [])
  end.

(** What a middleware does with a request: it answers, or it sets
    [req.user] and calls [next()]. *)
Inductive Outcome : Type :=
| Responded (r : Response)
| Next (user : Decoded).

(** [authHeader?.replace('Bearer ', '')] *)
Definition extractToken (authHeader : option string) : option string :=
  option_map (Js.replace "Bearer " "") authHeader.

Definition noToken : Response :=
  failure 401 "Access denied. No token provided.".

(** The rest of the [try] block, from [jwt.verify] on, and the [catch]
    block. *)
Definition verifyAndAttach (cfg : Config) (lib : Libraries) (token : string)
    (clock : Date) : Outcome :=
  match
    Js.bind (jwt_verify lib token (JWT_SECRET_middleware cfg) clock)
      (fun decoded =>
         Js.bind (toISOString (iat decoded)) (fun _ =>
         Js.bind (toISOString (exp decoded)) (fun _ =>
         Js.Ok decoded)))
  with
  | Js.Ok decoded => Next decoded
  | Js.Throw error =>
      if String.eqb (Js.name error) "JsonWebTokenError"
      then Responded (failure 401 "Invalid token")
      else if String.eqb (Js.name error) "TokenExpiredError"
      then Responded (failure 401 "Token expired. Please login again.")
      else Responded (failureWith 500 "Token verification failed" error)
  end.

Definition authenticateToken (cfg : Config) (lib : Libraries)
    (authHeader : option string) (clock : Date) : Outcome :=
  let token := extractToken authHeader in
  if Js.falsy token then Responded noToken
  else match token with
       | Some t => verifyAndAttach cfg lib t clock
       | None => Responded noToken
       end.

(** [router.post(path, authenticateToken, handler)] *)
Definition protected (cfg : Config) (lib : Libraries)
    (authHeader : option string) (env : Env) (st : Store)
    (handler : Decoded -> Response * Store) : Response * Store :=
  match authenticateToken cfg lib authHeader (now env) with
  | Responded r => (r, st)
  | Next user => handler user
  end.

(** ** routes/auth.js *)

Definition JWT_SECRET_routes (cfg : Config) : string :=
  Js.orElse (JWT_SECRET cfg) "your-secret-key-change-this".

Inductive SkillsValue : Type :=
| SkillsArray (items : list string)
| SkillsString (s : string).

Module RegisterBody.
Record t := mk {
  email : option string;
  password : option string;
  fullName : option string;
  address : option string;
  gender : option string;
  dateOfBirth : option string;
  mobileNo : option string;
  courseName : option string;
  college : option string;
  educationFrom : option string;
  educationTo : option string;
  skills : option SkillsValue;
  certificationTitle : option string;
  certificationSpecs : option string;
  certificationDesc : option string;
  trainingTitle : option string;
  trainingCompany : option string;
  trainingFrom : option string;
  trainingTo : option string;
  trainingDesc : option string
}.
End RegisterBody.

(** The [studentData] object of the register handler. *)
Definition buildStudentData (b : RegisterBody.t) : Js.Result StudentData.t :=
  Js.bind
    (match RegisterBody.skills b with
     | Some (SkillsArray items) => Js.Ok items
     | Some (SkillsString s) => Js.Ok (map Js.trim (Js.split "," s))
     | None =>
         Js.Throw (Js.mkError "TypeError"
           "Cannot read properties of undefined (reading 'split')" [])
     end)
    (fun skills =>
       Js.Ok (StudentData.mk
         (RegisterBody.email b) (RegisterBody.password b)
         (RegisterBody.fullName b)
         (mkPersonalInfo (RegisterBody.address b) (RegisterBody.gender b)
            (RegisterBody.dateOfBirth b) (RegisterBody.mobileNo b))
         [mkEducation (RegisterBody.courseName b) (RegisterBody.college b)
            (RegisterBody.educationFrom b) (RegisterBody.educationTo b)]
         skills
         (if Js.falsy (RegisterBody.certificationTitle b) then []
          else [mkCertification (RegisterBody.certificationTitle b)
                  (RegisterBody.certificationSpecs b)
                  (RegisterBody.certificationDesc b)])
         (if Js.falsy (RegisterBody.trainingTitle b) then []
          else [mkTraining (RegisterBody.trainingTitle b)
                  (RegisterBody.trainingCompany b)
                  (RegisterBody.trainingFrom b) (RegisterBody.trainingTo b)
                  (RegisterBody.trainingDesc b)]))).

Definition publicStudent (s : Student) : Json :=
  JObj [("id", JStr (_id s)); ("email", JStr (email s));
        ("fullName", JStr (fullName s)); ("userType", JStr (userType s))].

Definition issueToken (cfg : Config) (lib : Libraries) (env : Env)
    (s : Student) : string :=
  jwt_sign lib (mkClaims (_id s) (email s)) (JWT_SECRET_routes cfg) (now env).

(** The [catch] block of the register handler. *)
Definition registerCatch (error : Js.Error) : Response :=
  if String.eqb (Js.name error) "ValidationError"
  then mkResponse 400
         (JObj [("success", JBool false); ("message", JStr "Validation error");
                ("errors", JArr (map JStr (Js.errors error)))])
  else failureWith 500 "Server error during registration" error.

(** [router.post('/register', ...)] *)
Definition register (cfg : Config) (lib : Libraries) (env : Env)
    (st : Store) (b : RegisterBody.t) : Response * Store :=
  match findOne st (RegisterBody.email b) with
  | Some existingStudent => (failure 400 "Email already registered", st)
  | None =>
      match Js.bind (buildStudentData b) (create lib env st) with
      | Js.Throw error => (registerCatch error, st)
      | Js.Ok (student, st') =>
          let token := issueToken cfg lib env student in
          (mkResponse 201
             (JObj [("success", JBool true);
                    ("message", JStr "Student registered successfully");
                    ("token", JStr token);
                    ("student", publicStudent student)]),
           st')
      end
  end.

Module LoginBody.
Record t := mk {
  email : option string;
  password : option string
}.
End LoginBody.

Definition invalidCredentials : Response :=
  failure 401 "Invalid email or password".

(** [router.post('/login', ...)] *)
Definition login (cfg : Config) (lib : Libraries) (env : Env)
    (st : Store) (b : LoginBody.t) : Response * Store :=
  match LoginBody.email b, LoginBody.password b with
  | Some email, Some password =>
      if Js.falsy (Some email) || Js.falsy (Some password)
      then (failure 400 "Please provide email and password", st)
      else
        match findOne st (Some email) with
        | None => (invalidCredentials, st)
        | Some student =>
            match comparePassword lib student password with
            | Js.Throw error =>
                (failureWith 500 "Server error during login" error, st)
            | Js.Ok false => (invalidCredentials, st)
            | Js.Ok true =>
                match save lib env st
                        (assign_lastLoginAt (now env) (load student)) with
                | Js.Throw error =>
                    (failureWith 500 "Server error during login" error, st)
                | Js.Ok (student', st') =>
                    let token := issueToken cfg lib env student' in
                    (mkResponse 200
                       (JObj [("success", JBool true);
                              ("message", JStr "Login successful");
                              ("token", JStr token);
                              ("student", publicStudent student')]),
                     st')
                end
            end
        end
  | _, _ => (failure 400 "Please provide email and password", st)
  end.

Module ChangePasswordBody.
Record t := mk {
  newPassword : option string;
  confirmPassword : option string
}.
End ChangePasswordBody.

(** The handler of [router.post('/change-password', authenticateToken, ...)],
    run with the [req.user] the middleware has set.  Both calls of
    [findById] cast [req.user.userId]; the second cast gives what the first
    gave. *)
Definition changePassword (lib : Libraries) (env : Env) (st : Store)
    (user : Decoded) (b : ChangePasswordBody.t) : Response * Store :=
  match ChangePasswordBody.newPassword b,
        ChangePasswordBody.confirmPassword b with
  | Some newPassword, Some confirmPassword =>
      if Js.falsy (Some newPassword) || Js.falsy (Some confirmPassword)
      then (failure 400 "Please provide both new password and confirmation",
            st)
      else if negb (String.eqb newPassword confirmPassword)
      then (failure 400 "Passwords do not match", st)
      else if length newPassword <? 6
      then (failure 400 "Password must be at least 6 characters long", st)
      else
        match castToObjectId lib (userId user) with
        | Js.Throw error =>
            (failureWith 500 "Failed to change password" error, st)
        | Js.Ok id =>
            match findById st id with
            | None => (failure 404 "Student not found", st)
            | Some student =>
                match save lib env st
                        (assign_passwordChangedAt (now env)
                           (assign_password newPassword (load student))) with
                | Js.Throw error =>
                    (failureWith 500 "Failed to change password" error, st)
                | Js.Ok (_, st') =>
                    match findById st' id with
                    | None =>
                        (failureWith 500 "Failed to change password"
                           (Js.mkError "TypeError"
                              "Cannot read properties of null (reading 'password')"
                              []),
                         st')
                    | Some updatedStudent =>
                        match bcrypt_compare lib newPassword
                                (password updatedStudent) with
                        | Js.Throw error =>
                            (failureWith 500 "Failed to change password"
                               error,
                             st')
                        | Js.Ok false =>
                            (failure 500
                               "Password update failed. Please try again.",
                             st')
                        | Js.Ok true =>
                            (mkResponse 200
                               (JObj [("success", JBool true);
                                      ("message",
                                       JStr "Password changed successfully")]),
                             st')
                        end
                    end
                end
            end
        end
  | _, _ =>
      (failure 400 "Please provide both new password and confirmation", st)
  end.

(** The handler of [router.post('/logout', authenticateToken, ...)]. *)
Definition logout (lib : Libraries) (env : Env) (st : Store) (user : Decoded)
  : Response * Store :=
  match castToObjectId lib (userId user) with
  | Js.Throw error => (failureWith 500 "Logout failed" error, st)
  | Js.Ok id =>
      let st' := findByIdAndUpdate_lastLogoutAt st id env in
      (mkResponse 200
         (JObj [("success", JBool true);
                ("message", JStr "Logged out successfully")]),
       st')
  end.

(** ** The routes as one server *)

(** The routes of the account lifecycle that write the students
    collection. *)
Inductive Request : Type :=
| PostRegister (b : RegisterBody.t)
| PostLogin (b : LoginBody.t)
| PostChangePassword (authorization : option string)
                     (b : ChangePasswordBody.t)
| PostLogout (authorization : option string).

Definition handle (cfg : Config) (lib : Libraries) (env : Env) (st : Store)
    (req : Request) : Response * Store :=
  match req with
  | PostRegister b => register cfg lib env st b
  | PostLogin b => login cfg lib env st b
  | PostChangePassword authorization b =>
      protected cfg lib authorization env st
        (fun user => changePassword lib env st user b)
  | PostLogout authorization =>
      protected cfg lib authorization env st
        (fun user => logout lib env st user)
  end.

(** The stores the server reaches from the empty collection. *)
Inductive reachable (cfg : Config) (lib : Libraries) : Store -> Prop :=
| reachable_empty : reachable cfg lib []
| reachable_handle : forall st env req,
    reachable cfg lib st ->
    reachable cfg lib (snd (handle cfg lib env st req)).

(** Every password a client has sent to the server along a run. *)
Definition submittedPasswords (req : Request) : list string :=
  match req with
  | PostRegister b =>
      match RegisterBody.password b with Some p => [p] | None => [] end
  | PostLogin b =>
      match LoginBody.password b with Some p => [p] | None => [] end
  | PostChangePassword _ b =>
      (match ChangePasswordBody.newPassword b with
       | Some p => [p] | None => [] end ++
       match ChangePasswordBody.confirmPassword b with
       | Some p => [p] | None => [] end)%list
  | PostLogout _ => []
  end.

(** A run of the server: the requests with what the environment supplied
    to each, oldest first. *)
Fixpoint run (cfg : Config) (lib : Libraries) (st : Store)
    (reqs : list (Env * Request)) : Store :=
  match reqs with
  | [] => st
  | (env, req) :: rest => run cfg lib (snd (handle cfg lib env st req)) rest
  end.

(** The value is an output of the hashing step. *)
Definition hashed (lib : Libraries) (v : string) : Prop :=
  exists plaintext salt, bcrypt_hash lib plaintext salt = Js.Ok v.

(** ** Predicates of the statements *)

(** The request reaches the lookup and no student has its email. *)
Definition unknownEmail (st : Store) (b : LoginBody.t) : Prop :=
  exists e p, b = LoginBody.mk (Some e) (Some p) /\ e <> "" /\ p <> "" /\
              findOne st (Some e) = None.

(** The request reaches a student whose password does not verify. *)
Definition wrongPassword (lib : Libraries) (st : Store) (b : LoginBody.t)
  : Prop :=
  exists e p s, b = LoginBody.mk (Some e) (Some p) /\ e <> "" /\ p <> "" /\
                findOne st (Some e) = Some s /\
                comparePassword lib s p = Js.Ok false.

(** The shape of a bcrypt hash: sixty characters that open with the
    version marker. *)
Definition wellFormedHash (h : string) : bool :=
  (length h =? 60) && prefix "$2" h.

Definition hashedStore (lib : Libraries) (st : Store) : Prop :=
  Forall (fun s => hashed lib (password s)) st.

(** The unique indexes on [_id] and [email]. *)
Definition uniqueKeys (st : Store) : Prop :=
  NoDup (map _id st) /\ NoDup (map email st).

(** Every stored student passes the validation [save] runs. *)
Definition validStore (lib : Libraries) (st : Store) : Prop :=
  Forall (fun s => validate lib (dataOf s) = []) st.

(** Every stored email is a value of the email setters. *)
Definition castStore (st : Store) : Prop :=
  Forall (fun s => exists e0, email s = castEmail e0) st.

(** A student with the two paths a logout writes blanked. *)
Definition withoutLogoutStamp (s : Student) : Student :=
  set_updatedAt 0%Z (set_lastLogoutAt None s).

(** What a logout of [id] may do to one stored student. *)
Definition logoutFrame (id : ObjectId) (env : Env) (a a' : Student)
  : Prop :=
  a' = a \/
  (_id a = id /\
   a' = set_updatedAt (now env) (set_lastLogoutAt (Some (now env)) a)).

(** What a login that finds [student] may do to one stored student. *)
Definition loginFrame (student : option Student) (env : Env)
    (a a' : Student) : Prop :=
  a' = a \/
  (student = Some a /\
   a' = set_updatedAt (now env) (set_lastLoginAt (Some (now env)) a)).

(** What a change of password to [np] for the student of [id] may do to
    one student of the store [st]: the password written is the hash of
    [np], or the password the student had when that is [np] itself. *)
Definition passwordFrame (lib : Libraries) (st : Store) (id : ObjectId)
    (np : string) (env : Env) (a a' : Student) : Prop :=
  a' = a \/
  (findById st id = Some a /\
   exists pw,
     (bcrypt_hash lib np (salt env) = Js.Ok pw \/
      (pw = np /\ password a = np)) /\
     a' = set_updatedAt (now env)
            (set_passwordChangedAt (Some (now env)) (set_password pw a))).

(** A loaded document follows the stored student it was loaded from: the
    assignments of the handlers leave its key and validated paths alone,
    and a password that differs from the stored one is marked modified. *)
Definition tracks (student : Student) (d : Document) : Prop :=
  _id (doc d) = _id student /\
  userType (doc d) = userType student /\
  (forall pw, dataOf (set_password pw (doc d))
              = dataOf (set_password pw student)) /\
  (isModified "password" d = false -> password (doc d) = password student).

(** What handling a request that submits the passwords [subm] does to the
    store: nothing, the insert of a new student, the save of a loaded
    document, or the update of a logout.  A password that is hashed is one
    of [subm]. *)
Inductive Effect (lib : Libraries) (env : Env) (subm : list string)
    (st st' : Store) : Prop :=
| Untouched : st' = st -> Effect lib env subm st st'
| Created : forall data s p,
    StudentData.password data = Some p -> In p subm ->
    create lib env st data = Js.Ok (s, st') -> Effect lib env subm st st'
| Saved : forall student d s',
    In student st -> tracks student d ->
    (isModified "password" d = true -> In (password (doc d)) subm) ->
    save lib env st d = Js.Ok (s', st') -> Effect lib env subm st st'
| LoggedOut : forall id,
    st' = findByIdAndUpdate_lastLogoutAt st id env ->
    Effect lib env subm st st'.

(** ** A fixture

    Stand-ins with the interface of the libraries, to run the handlers on
    concrete requests.  The theorems below hold for every [Libraries]. *)

Module Fixture.

Definition hash (s salt : string) : Js.Result string :=
  Js.Ok ("$2a$10$" ++ salt ++ s).

Definition compare (s h : string) : Js.Result bool :=
  if prefix "$2a$10$" h
  then Js.Ok (String.eqb h ("$2a$10$" ++ substring 7 4 h ++ s))
  else Js.Throw (Js.mkError "Error" "Invalid salt version" []).

Definition ana : Decoded :=
  mkDecoded "64b000000000000000000001" "ana@example.com"
            (Some 1700000000%Z) (Some 1700604800%Z).

Definition sign (c : Claims) (secret : string) (clock : Date) : string :=
  "token-" ++ c_userId c.

Definition verify (token secret : string) (clock : Date)
  : Js.Result Decoded :=
  if negb (String.eqb secret "s3cret")
  then Js.Throw (Js.mkError "JsonWebTokenError" "invalid signature" [])
  else if String.eqb token "token-64b000000000000000000001"
  then if (1700604800 * 1000 <=? clock)%Z
       then Js.Throw (Js.mkError "TokenExpiredError" "jwt expired" [])
       else Js.Ok ana
  else if String.eqb token "token-without-timestamps"
  then Js.Ok (mkDecoded "64b000000000000000000001" "ana@example.com"
                        None None)
  else if String.eqb token "token-not-yet-valid"
  then Js.Throw (Js.mkError "NotBeforeError" "jwt not active" [])
  else Js.Throw (Js.mkError "JsonWebTokenError" "jwt malformed" []).

Definition isHexDigit (c : ascii) : bool :=
  existsb (Ascii.eqb c) (Js.toList "0123456789abcdefABCDEF").

(** Twenty-four hexadecimal digits make an ObjectId, written in lower
    case. *)
Definition objectId (v : string) : Js.Result ObjectId :=
  if (length v =? 24) && forallb isHexDigit (Js.toList v)
  then Js.Ok (Js.toLowerCase v)
  else Js.Throw (Js.mkError "CastError"
                   ("Cast to ObjectId failed for value " ++ v) []).

Definition lib : Libraries :=
  mkLibraries hash compare sign verify (fun _ _ _ _ _ => [])
    (fun s => "E11000 duplicate key error, dup key: " ++ _id s) objectId.

Definition cfg : Config := mkConfig (Some "s3cret").

Definition env0 : Env :=
  mkEnv 1700000000000%Z "salt" "64b000000000000000000001".

Definition env1 : Env :=
  mkEnv 1700000500000%Z "tlas" "64b000000000000000000002".

Definition registerAna : RegisterBody.t :=
  RegisterBody.mk (Some "Ana@Example.com") (Some "secret1") (Some "Ana")
    (Some "1 Main St") (Some "female") (Some "2001-02-03") (Some "5550100")
    (Some "BSc") (Some "City College") (Some "2019") (Some "2022")
    (Some (SkillsString "rocq, js")) None None None None None None None None.

(** The store after Ana's registration. *)
Definition store1 : Store :=
  snd (register cfg lib env0 [] registerAna).

Definition registerBen : RegisterBody.t :=
  RegisterBody.mk (Some "ben@example.com") (Some "hunter22") (Some "Ben")
    (Some "2 Side St") (Some "male") (Some "2000-05-06") (Some "5550101")
    (Some "BA") (Some "Town College") (Some "2018") (Some "2021")
    (Some (SkillsArray ["go"])) None None None None None None None None.

(** The store after Ben's registration as well. *)
Definition store2 : Store :=
  snd (register cfg lib env1 store1 registerBen).

Definition storedAna : Student :=
  mkStudent "64b000000000000000000001" "ana@example.com"
    "$2a$10$saltsecret1" "Ana" "student" None
    (mkPersonalInfo (Some "1 Main St") (Some "female") (Some "2001-02-03")
       (Some "5550100"))
    [mkEducation (Some "BSc") (Some "City College") (Some "2019")
       (Some "2022")]
    ["rocq"; "js"] [] [] None None None None None
    1700000000000%Z 1700000000000%Z.

End Fixture.

(** ** The other routes, methods and middlewares of the files *)

(** [studentSchema.statics.findByEmail] *)
Definition findByEmail (st : Store) (email : string) : option Student :=
  findOne st (Some (Js.toLowerCase email)).

(** [studentSchema.methods.changedPasswordAfter].  [parseInt(x, 10)] of
    the quotient of a time value by a thousand drops its fraction: the
    integer quotient that rounds towards zero. *)
Definition changedPasswordAfter (this : Student) (JWTTimestamp : Z) : bool :=
  match passwordChangedAt this with
  | Some t =>
      let changedTimestamp := Z.quot t 1000 in
      (JWTTimestamp <? changedTimestamp)%Z
  | None => false
  end.

(** [router.post('/check-email', ...)] *)
Definition checkEmail (st : Store) (email : option string) : Response :=
  if Js.falsy email then failure 400 "Email is required"
  else
    match email with
    | Some e =>
        let existingStudent := findOne st (Some (Js.toLowerCase e)) in
        mkResponse 200
          (JObj [("success", JBool true);
                 ("exists",
                  JBool match existingStudent with
                        | Some _ => true
                        | None => false
                        end)])
    | None => failure 400 "Email is required"
    end.

Fixpoint removeFirst (p : Student -> bool) (st : Store) : Store :=
  match st with
  | [] => []
  | s :: rest => if p s then rest else s :: removeFirst p rest
  end.

(** [router.delete('/students/:id', ...)].  [castObjectId] is Mongoose's
    cast of the route parameter to an ObjectId, which throws a [CastError]
    on a string that is none. *)
Definition deleteStudent (castObjectId : string -> Js.Result ObjectId)
    (st : Store) (id : string) : Response * Store :=
  match castObjectId id with
  | Js.Throw error => (failureWith 500 "Error deleting student" error, st)
  | Js.Ok oid =>
      match findById st oid with
      | None => (failure 404 "Student not found", st)
      | Some student =>
          (mkResponse 200
             (JObj [("success", JBool true);
                    ("message", JStr "Student deleted successfully")]),
           removeFirst (fun s => String.eqb (_id s) oid) st)
      end
  end.

(** [items.join(sep)] *)
Fixpoint join (sep : string) (items : list string) : string :=
  match items with
  | [] => ""
  | [x] => x
  | x :: rest => x ++ sep ++ join sep rest
  end.

(** [isStudent], given [req.user.userType]: the answer, or [None] when
    [next()] is called. *)
Definition isStudent (userType : option string) : option Response :=
  match userType with
  | Some t =>
      if negb (String.eqb t "student")
      then Some (failure 403 "Access denied. Student account required.")
      else None
  | None => Some (failure 403 "Access denied. Student account required.")
  end.

(** [checkUserType(...allowedTypes)], given [req.user.userType]. *)
Definition checkUserType (allowedTypes : list string)
    (userType : option string) : option Response :=
  if negb match userType with
          | Some t => existsb (String.eqb t) allowedTypes
          | None => false
          end
  then Some (failure 403
               ("Access denied. Required user type: " ++
                join " or " allowedTypes))
  else None.

(** The routes of [routes/auth.js] that write or query the students: the
    lifecycle routes, [check-email] and the unprotected delete. *)
Inductive AuthRequest : Type :=
| Lifecycle (req : Request)
| PostCheckEmail (email : option string)
| DeleteStudent (id : string).

Definition serve (cfg : Config) (lib : Libraries)
    (castObjectId : string -> Js.Result ObjectId) (env : Env) (st : Store)
    (req : AuthRequest) : Response * Store :=
  match req with
  | Lifecycle r => handle cfg lib env st r
  | PostCheckEmail email => (checkEmail st email, st)
  | DeleteStudent id => deleteStudent castObjectId st id
  end.

(** The stores these routes reach from the empty collection. *)
Inductive served (cfg : Config) (lib : Libraries)
    (castObjectId : string -> Js.Result ObjectId) : Store -> Prop :=
| served_empty : served cfg lib castObjectId []
| served_step : forall st env req,
    served cfg lib castObjectId st ->
    served cfg lib castObjectId (snd (serve cfg lib castObjectId env st req)).

(** A student with the two paths a login writes blanked. *)
Definition withoutLoginStamp (s : Student) : Student :=
  set_updatedAt 0%Z (set_lastLoginAt None s).

(** A student with the three paths a password change writes blanked. *)
Definition withoutPasswordStamp (s : Student) : Student :=
  set_updatedAt 0%Z (set_passwordChangedAt None (set_password "" s)).

(** ** models/ContactMessage.js and the contact form of routes/contact.js *)

Module ContactMessage.
Record t := mk {
  _id : ObjectId;
  name : string;
  email : string;
  subject : string;
  message : string;
  userId : option ObjectId;
  status : string;
  response : option string;
  respondedAt : option Date;
  respondedBy : option string;
  createdAt : Date;
  updatedAt : Date
}.
End ContactMessage.

Module ContactBody.
Record t := mk {
  name : option string;
  email : option string;
  subject : option string;
  message : option string
}.
End ContactBody.

(** [/^[^\s@]+@[^\s@]+\.[^\s@]+$/.test(s)]: no white space, one [@] and no
    more, after at least one character, and a dot at least two places after
    it that is not the last character. *)
Definition matchesContactEmail (s : string) : bool :=
  let cs := Js.toList s in
  let n := List.length cs in
  forallb (fun c => negb (Js.isSpace c)) cs &&
  (count_occ ascii_dec cs "@"%char =? 1) &&
  existsb (fun i =>
    Ascii.eqb (nth i cs "000"%char) "@"%char &&
    existsb (fun j => Ascii.eqb (nth j cs "000"%char) "."%char)
            (seq (i + 2) (n - 1 - (i + 2))))
    (seq 1 (n - 1)).

(** The validators of [contactMessageSchema], on the values the setters
    have left. *)
Definition validateContact (m : ContactMessage.t) : list (string * string) :=
  ((if String.eqb (ContactMessage.name m) ""
    then [("name", "Name is required")] else []) ++
   (if String.eqb (ContactMessage.email m) ""
    then [("email", "Email is required")]
    else if Js.matchesEmail (ContactMessage.email m) then []
    else [("email", "Please provide a valid email")]) ++
   (if String.eqb (ContactMessage.subject m) ""
    then [("subject", "Subject is required")] else []) ++
   (if String.eqb (ContactMessage.message m) ""
    then [("message", "Message is required")]
    else if length (ContactMessage.message m) <? 10
    then [("message", "Message must be at least 10 characters")]
    else []))%list.

(** [new ContactMessage({...})] of the contact form: the values the route
    passes, through the setters of the schema ([trim] on the four paths,
    [lowercase] on the email), with the defaults and the timestamps. *)
Definition newContactMessage (env : Env) (name email subject message : string)
  : ContactMessage.t :=
  ContactMessage.mk (freshId env)
    (Js.trim (Js.trim name))
    (castEmail (Js.toLowerCase (Js.trim email)))
    (Js.trim (Js.trim subject))
    (Js.trim (Js.trim message))
    None "new" None None None (now env) (now env).

(** [router.post('/', ...)] of [routes/contact.js].  [isoString] is the
    text JSON gives a date; [duplicateKey] is the message of the driver's
    E11000 error. *)
Definition submitContact (isoString : Date -> string) (duplicateKey : string)
    (env : Env) (messages : list ContactMessage.t) (b : ContactBody.t)
  : Response * list ContactMessage.t :=
  match ContactBody.name b, ContactBody.email b,
        ContactBody.subject b, ContactBody.message b with
  | Some name, Some email, Some subject, Some message =>
      if Js.falsy (Some name) || Js.falsy (Some email) ||
         Js.falsy (Some subject) || Js.falsy (Some message)
      then (failure 400 "All fields are required", messages)
      else if negb (matchesContactEmail email)
      then (failure 400 "Invalid email address", messages)
      else if length (Js.trim message) <? 10
      then (failure 400 "Message must be at least 10 characters long",
            messages)
      else
        let contactMessage := newContactMessage env name email subject message in
        match validateContact contactMessage with
        | [] =>
            if existsb (fun m => String.eqb (ContactMessage._id m)
                                            (freshId env)) messages
            then (failureWith 500 "Failed to send message. Please try again."
                    (Js.mkError "MongoServerError" duplicateKey []),
                  messages)
            else
              (mkResponse 201
                 (JObj [("success", JBool true);
                        ("message",
                         JStr "Your message has been sent successfully");
                        ("data",
                         JObj [("id", JStr (ContactMessage._id contactMessage));
                               ("createdAt",
                                JStr (isoString
                                        (ContactMessage.createdAt
                                           contactMessage)))])]),
               (messages ++ [contactMessage])%list)
        | errs =>
            (failureWith 500 "Failed to send message. Please try again."
               (Js.mkError "ValidationError"
                  ("ContactMessage validation failed: " ++ joinMessages errs)
                  (map snd errs)),
             messages)
        end
  | _, _, _, _ => (failure 400 "All fields are required", messages)
  end.

(** Stand-ins of a second kind: the hash keeps the password readable, so
    that a password verifies against its own hash and no other. *)
Module Demo.

Definition hash (s salt : string) : Js.Result string :=
  Js.Ok ("$2a$10$" ++ s).

Definition compare (s h : string) : Js.Result bool :=
  Js.Ok (String.eqb h ("$2a$10$" ++ s)).

(** Twenty-four hexadecimal digits make an ObjectId. *)
Definition isHex (c : ascii) : bool :=
  let n := nat_of_ascii c in
  ((48 <=? n) && (n <=? 57)) || ((97 <=? n) && (n <=? 102)) ||
  ((65 <=? n) && (n <=? 70)).

Definition castObjectId (v : string) : Js.Result ObjectId :=
  if (length v =? 24) && forallb isHex (Js.toList v) then Js.Ok v
  else Js.Throw (Js.mkError "CastError" "Cast to ObjectId failed" []).

Definition lib : Libraries :=
  mkLibraries hash compare Fixture.sign Fixture.verify
    (fun _ _ _ _ _ => []) (fun s => "E11000 duplicate key error")
    castObjectId.

End Demo.

(** * Properties *)

Example toLowerCase_1 : Js.toLowerCase "A@B.Com" = "a@b.com".
Proof. reflexivity. Qed.
Example trim_1 : Js.trim "  a b  " = "a b".
Proof. reflexivity. Qed.
Example replace_1 : Js.replace "Bearer " "" "Bearer abc" = "abc".
Proof. reflexivity. Qed.
Example replace_2 : Js.replace "Bearer " "" "xBearer y" = "xy".
Proof. reflexivity. Qed.
Example replace_3 : Js.replace "Bearer " "" "Basic abc" = "Basic abc".
Proof. reflexivity. Qed.
Example split_1 : Js.split "," "a, b,,c" = ["a"; " b"; ""; "c"].
Proof. reflexivity. Qed.
Example matchesEmail_1 :
  map Js.matchesEmail
      ["a@b.com"; "a@b."; "@b.com"; "a@.com"; "a b@c.de"; "a@b@c.d.e"]
  = [true; false; false; false; false; true].
Proof. reflexivity. Qed.

Example register_ana :
  register Fixture.cfg Fixture.lib Fixture.env0 [] Fixture.registerAna
  = (mkResponse 201
       (JObj [("success", JBool true);
              ("message", JStr "Student registered successfully");
              ("token", JStr "token-64b000000000000000000001");
              ("student",
               JObj [("id", JStr "64b000000000000000000001");
                     ("email", JStr "ana@example.com");
                     ("fullName", JStr "Ana");
                     ("userType", JStr "student")])]),
     [Fixture.storedAna]).
Proof. reflexivity. Qed.

(** ** Queries *)

Lemma find_In_some {A} (p : A -> bool) (l : list A) (a : A) :
  In a l -> p a = true -> exists b, find p l = Some b.
Proof.
  intros Hin Hp. destruct (find p l) as [b|] eqn:Hf.
  - now exists b.
  - rewrite (find_none p l Hf a Hin) in Hp. discriminate.
Qed.

Lemma isSpace_lowerChar (c : ascii) :
  Js.isSpace (Js.lowerChar c) = Js.isSpace c.
Proof. destruct c as [[] [] [] [] [] [] [] []]; reflexivity. Qed.

Lemma toLowerCase_trimStart (s : string) :
  Js.toLowerCase (Js.trimStart s) = Js.trimStart (Js.toLowerCase s).
Proof.
  induction s as [|c s IH]; cbn; trivial.
  rewrite isSpace_lowerChar. now destruct (Js.isSpace c).
Qed.

Lemma toLowerCase_trimEnd (s : string) :
  Js.toLowerCase (Js.trimEnd s) = Js.trimEnd (Js.toLowerCase s).
Proof.
  induction s as [|c s IH]; cbn; trivial.
  rewrite <- IH, isSpace_lowerChar.
  destruct (Js.trimEnd s); cbn; trivial. now destruct (Js.isSpace c).
Qed.

(** The two setters of [email] commute: the order in which Mongoose runs
    them does not matter. *)
Lemma castEmail_setter_order (v : string) :
  castEmail v = Js.toLowerCase (Js.trim v).
Proof.
  unfold castEmail, Js.trim.
  now rewrite toLowerCase_trimEnd, toLowerCase_trimStart.
Qed.

Lemma castEmail_case_variant (e e0 : string) :
  Js.toLowerCase e = Js.toLowerCase e0 -> castEmail e = castEmail e0.
Proof. unfold castEmail. now intros ->. Qed.

Lemma findOne_stored (st : Store) (a : Student) (e : string) :
  In a st -> email a = castEmail e ->
  exists b, findOne st (Some e) = Some b.
Proof.
  intros Hin He. simpl. apply find_In_some with (a := a); trivial.
  rewrite He. apply String.eqb_refl.
Qed.

(** ** Registration *)

(** C1. A registration whose email is that of a stored account, up to
    letter case, is answered 400 with [success: false] and the message
    [Email already registered], and the store, hence every field of the
    existing account, is as before. *)
Theorem register_existing_email_conflict
    (cfg : Config) (lib : Libraries) (env : Env) (st : Store)
    (b : RegisterBody.t) (e e0 : string) (a : Student) :
  RegisterBody.email b = Some e ->
  In a st ->
  email a = castEmail e0 ->
  Js.toLowerCase e = Js.toLowerCase e0 ->
  register cfg lib env st b
  = (mkResponse 400
       (JObj [("success", JBool false);
              ("message", JStr "Email already registered")]),
     st).
Proof.
  intros Hb Hin Ha Hcase. unfold register. rewrite Hb.
  destruct (findOne_stored st a e Hin) as [x Hx].
  - rewrite Ha. symmetry. now apply castEmail_case_variant.
  - now rewrite Hx.
Qed.

Lemma register_existing_email_conflict_witness :
  let b := RegisterBody.mk (Some "ANA@example.COM") (Some "other-pw")
             (Some "Ana B") None None None None None None None None None
             None None None None None None None None in
  In Fixture.storedAna Fixture.store1 /\
  register Fixture.cfg Fixture.lib Fixture.env1 Fixture.store1 b
  = (mkResponse 400
       (JObj [("success", JBool false);
              ("message", JStr "Email already registered")]),
     Fixture.store1).
Proof.
  intro b. split.
  - left. reflexivity.
  - apply (register_existing_email_conflict Fixture.cfg Fixture.lib
             Fixture.env1 Fixture.store1 b "ANA@example.COM"
             "Ana@Example.com" Fixture.storedAna).
    + reflexivity.
    + left. reflexivity.
    + reflexivity.
    + reflexivity.
Defined.

(** C10. A registration without [skills] whose email matches no stored
    account throws on [skills.split] while [studentData] is built: the
    answer is the 500 of the catch block, not the 400 of a validation
    error, and the store is as before. *)
Theorem register_missing_skills_500
    (cfg : Config) (lib : Libraries) (env : Env) (st : Store)
    (b : RegisterBody.t) :
  RegisterBody.skills b = None ->
  findOne st (RegisterBody.email b) = None ->
  register cfg lib env st b
  = (mkResponse 500
       (JObj [("success", JBool false);
              ("message", JStr "Server error during registration");
              ("error",
               JStr "Cannot read properties of undefined (reading 'split')")]),
     st).
Proof.
  intros Hs Hf. unfold register, buildStudentData. rewrite Hf, Hs.
  reflexivity.
Qed.

Lemma register_missing_skills_500_witness :
  let b := RegisterBody.mk (Some "bob@example.com") (Some "secret2")
             (Some "Bob") (Some "2 Side St") (Some "male")
             (Some "2000-01-01") (Some "5550101") (Some "BA")
             (Some "Town College") None None None
             None None None None None None None None in
  status (fst (register Fixture.cfg Fixture.lib Fixture.env1
                 Fixture.store1 b)) = 500 /\
  snd (register Fixture.cfg Fixture.lib Fixture.env1 Fixture.store1 b)
  = Fixture.store1.
Proof.
  intro b.
  rewrite (register_missing_skills_500 Fixture.cfg Fixture.lib Fixture.env1
             Fixture.store1 b eq_refl eq_refl).
  split; reflexivity.
Defined.

(** ** Login *)

Lemma falsy_nonempty (s : string) : s <> "" -> Js.falsy (Some s) = false.
Proof. intro H. simpl. now apply String.eqb_neq. Qed.

(** C2. A login with an email no account has and a login with a stored
    email and a password that does not verify get the same answer, 401
    with [success: false] and [Invalid email or password]; neither changes
    the store. *)
Theorem login_failures_indistinguishable
    (cfg : Config) (lib : Libraries) (env1 env2 : Env) (st1 st2 : Store)
    (b1 b2 : LoginBody.t) :
  unknownEmail st1 b1 ->
  wrongPassword lib st2 b2 ->
  login cfg lib env1 st1 b1
  = (mkResponse 401
       (JObj [("success", JBool false);
              ("message", JStr "Invalid email or password")]), st1) /\
  login cfg lib env2 st2 b2
  = (mkResponse 401
       (JObj [("success", JBool false);
              ("message", JStr "Invalid email or password")]), st2) /\
  fst (login cfg lib env1 st1 b1) = fst (login cfg lib env2 st2 b2).
Proof.
  intros (e1 & p1 & -> & He1 & Hp1 & Hf1)
         (e2 & p2 & s & -> & He2 & Hp2 & Hf2 & Hc).
  assert (H1 : login cfg lib env1 st1 (LoginBody.mk (Some e1) (Some p1))
               = (invalidCredentials, st1)).
  { unfold login. cbn [LoginBody.email LoginBody.password].
    rewrite (falsy_nonempty e1 He1), (falsy_nonempty p1 Hp1). cbn [orb].
    now rewrite Hf1. }
  assert (H2 : login cfg lib env2 st2 (LoginBody.mk (Some e2) (Some p2))
               = (invalidCredentials, st2)).
  { unfold login. cbn [LoginBody.email LoginBody.password].
    rewrite (falsy_nonempty e2 He2), (falsy_nonempty p2 Hp2). cbn [orb].
    now rewrite Hf2, Hc. }
  rewrite H1, H2. repeat split.
Qed.

Lemma login_failures_indistinguishable_witness :
  let b1 := LoginBody.mk (Some "bob@example.com") (Some "secret1") in
  let b2 := LoginBody.mk (Some "ana@example.com") (Some "secret9") in
  fst (login Fixture.cfg Fixture.lib Fixture.env1 Fixture.store1 b1)
  = fst (login Fixture.cfg Fixture.lib Fixture.env1 Fixture.store1 b2).
Proof.
  intros b1 b2.
  apply (login_failures_indistinguishable Fixture.cfg Fixture.lib
           Fixture.env1 Fixture.env1 Fixture.store1 Fixture.store1 b1 b2).
  - exists "bob@example.com", "secret1".
    repeat split; try discriminate.
  - exists "ana@example.com", "secret9", Fixture.storedAna.
    repeat split; try discriminate.
Defined.

(** ** The password verifier *)

Lemma comparePassword_value (lib : Libraries) (this : Student)
    (candidatePassword : string) :
  comparePassword lib this candidatePassword
  = Js.Ok match bcrypt_compare lib candidatePassword (password this) with
          | Js.Ok isMatch => isMatch
          | Js.Throw _ => false
          end.
Proof.
  unfold comparePassword.
  now destruct (bcrypt_compare lib candidatePassword (password this)).
Qed.

(** C8, as the code has it. [comparePassword] never throws: it returns what
    [bcrypt.compare] returns, [false] for a password that does not match,
    and [false] as well whenever [bcrypt.compare] throws, as on a stored
    hash it cannot read. *)
Theorem comparePassword_never_throws (lib : Libraries) (this : Student)
    (candidatePassword : string) :
  Js.threw (comparePassword lib this candidatePassword) = false /\
  (bcrypt_compare lib candidatePassword (password this) = Js.Ok false \/
   Js.threw (bcrypt_compare lib candidatePassword (password this)) = true <->
   comparePassword lib this candidatePassword = Js.Ok false).
Proof.
  rewrite comparePassword_value.
  destruct (bcrypt_compare lib candidatePassword (password this)) as [[]|e];
    cbn; split; trivial; split; intros H;
    try (destruct H; discriminate); try discriminate; auto.
Qed.

(** C8, as stated, fails: on a stored value that is no bcrypt hash the
    verifier raises nothing, whatever the library does; with a comparison
    that throws on such a value, it returns [false]. *)
Lemma comparePassword_malformed_hash_returns_false :
  wellFormedHash "secret1" = false /\
  (forall lib candidate,
     Js.threw (comparePassword lib (set_password "secret1" Fixture.storedAna)
                 candidate) = false) /\
  Js.threw (bcrypt_compare Fixture.lib "secret1" "secret1") = true /\
  comparePassword Fixture.lib (set_password "secret1" Fixture.storedAna)
    "secret1" = Js.Ok false.
Proof.
  repeat split. intros lib candidate. now rewrite comparePassword_value.
Qed.

(** ** The middleware *)

Section Middleware.

Variable cfg : Config.
Variable lib : Libraries.

Lemma authenticateToken_no_header (clock : Date) :
  authenticateToken cfg lib None clock = Responded noToken.
Proof. reflexivity. Qed.

Lemma authenticateToken_empty_token (hdr : option string) (clock : Date) :
  extractToken hdr = Some "" ->
  authenticateToken cfg lib hdr clock = Responded noToken.
Proof. unfold authenticateToken. now intros ->. Qed.

Lemma authenticateToken_token (hdr : option string) (t : string)
    (clock : Date) :
  extractToken hdr = Some t -> t <> "" ->
  authenticateToken cfg lib hdr clock = verifyAndAttach cfg lib t clock.
Proof.
  unfold authenticateToken. intros -> Ht. now rewrite falsy_nonempty.
Qed.

Lemma verifyAndAttach_invalid (t : string) (clock : Date) (e : Js.Error) :
  jwt_verify lib t (JWT_SECRET_middleware cfg) clock = Js.Throw e ->
  Js.name e = "JsonWebTokenError" ->
  verifyAndAttach cfg lib t clock = Responded (failure 401 "Invalid token").
Proof. unfold verifyAndAttach. intros -> Hn. cbn. now rewrite Hn. Qed.

Lemma verifyAndAttach_expired (t : string) (clock : Date) (e : Js.Error) :
  jwt_verify lib t (JWT_SECRET_middleware cfg) clock = Js.Throw e ->
  Js.name e = "TokenExpiredError" ->
  verifyAndAttach cfg lib t clock
  = Responded (failure 401 "Token expired. Please login again.").
Proof. unfold verifyAndAttach. intros -> Hn. cbn. now rewrite Hn. Qed.

Lemma verifyAndAttach_other_failure (t : string) (clock : Date)
    (e : Js.Error) :
  jwt_verify lib t (JWT_SECRET_middleware cfg) clock = Js.Throw e ->
  Js.name e <> "JsonWebTokenError" ->
  Js.name e <> "TokenExpiredError" ->
  verifyAndAttach cfg lib t clock
  = Responded (failureWith 500 "Token verification failed" e).
Proof.
  unfold verifyAndAttach. intros -> H1 H2. cbn.
  apply String.eqb_neq in H1, H2. now rewrite H1, H2.
Qed.

(** A verified token whose [iat] and [exp] make valid dates: the decoded
    payload becomes [req.user] and the next handler runs. *)
Lemma verifyAndAttach_verified (t : string) (clock : Date) (d : Decoded) :
  jwt_verify lib t (JWT_SECRET_middleware cfg) clock = Js.Ok d ->
  toISOString (iat d) = Js.Ok tt ->
  toISOString (exp d) = Js.Ok tt ->
  verifyAndAttach cfg lib t clock = Next d.
Proof. unfold verifyAndAttach. intros -> Hi He. cbn. now rewrite Hi, He. Qed.

Lemma verifyAndAttach_not_noToken (t : string) (clock : Date) :
  verifyAndAttach cfg lib t clock <> Responded noToken.
Proof.
  unfold verifyAndAttach.
  destruct (Js.bind _ _) as [d|e]; [discriminate|].
  destruct (String.eqb (Js.name e) "JsonWebTokenError"); [discriminate|].
  destruct (String.eqb (Js.name e) "TokenExpiredError"); discriminate.
Qed.

(** C3, the failing input evaluated. A token that [jwt.verify] accepts and
    whose payload has no [iat] does not reach [next()]: the debug log's
    [toISOString] throws a [RangeError], which the catch block answers with
    the 500 of an unknown verification failure. *)
Theorem authenticateToken_verified_without_iat_500
    (header t : string) (clock : Date) (d : Decoded) :
  extractToken (Some header) = Some t ->
  t <> "" ->
  jwt_verify lib t (JWT_SECRET_middleware cfg) clock = Js.Ok d ->
  iat d = None ->
  authenticateToken cfg lib (Some header) clock
  = Responded
      (mkResponse 500
         (JObj [("success", JBool false);
                ("message", JStr "Token verification failed");
                ("error", JStr "Invalid time value")])).
Proof.
  intros Ht Hne Hv Hi.
  rewrite (authenticateToken_token _ _ _ Ht Hne).
  unfold verifyAndAttach. rewrite Hv. cbn. now rewrite Hi.
Qed.

End Middleware.

Lemma authenticateToken_verified_without_iat_500_witness :
  authenticateToken Fixture.cfg Fixture.lib
    (Some "Bearer token-without-timestamps") 1700000500000%Z
  = Responded
      (mkResponse 500
         (JObj [("success", JBool false);
                ("message", JStr "Token verification failed");
                ("error", JStr "Invalid time value")])).
Proof.
  apply (authenticateToken_verified_without_iat_500 Fixture.cfg Fixture.lib
           "Bearer token-without-timestamps" "token-without-timestamps"
           1700000500000%Z
           (mkDecoded "64b000000000000000000001" "ana@example.com"
                      None None)).
  - reflexivity.
  - discriminate.
  - reflexivity.
  - reflexivity.
Defined.

Example authenticateToken_fixture :
  map (fun h => authenticateToken Fixture.cfg Fixture.lib h 1700000500000%Z)
      [None; Some "Bearer "; Some "Bearer garbage";
       Some "Bearer token-not-yet-valid";
       Some "Bearer token-64b000000000000000000001"]
  = [Responded noToken; Responded noToken;
     Responded (failure 401 "Invalid token");
     Responded (failureWith 500 "Token verification failed"
                  (Js.mkError "NotBeforeError" "jwt not active" []));
     Next Fixture.ana]
  /\ authenticateToken Fixture.cfg Fixture.lib
       (Some "Bearer token-64b000000000000000000001") 1700604800000%Z
     = Responded (failure 401 "Token expired. Please login again.").
Proof. split; reflexivity. Qed.

(** ** Token extraction *)

Lemma prefix_split (p s : string) :
  prefix p s = true -> s = p ++ Js.drop (length p) s.
Proof.
  revert s. induction p as [|c p IH]; intros s H.
  - reflexivity.
  - destruct s as [|c' s]; [discriminate|]. simpl in H.
    destruct (ascii_dec c c') as [->|]; [|discriminate].
    simpl. f_equal. now apply IH.
Qed.

Lemma prefix_append (p s : string) : prefix p (p ++ s) = true.
Proof.
  induction p as [|c p IH]; simpl.
  - now destruct s.
  - destruct (ascii_dec c c); [assumption|contradiction].
Qed.

Lemma drop_append (p s : string) : Js.drop (length p) (p ++ s) = s.
Proof. induction p; simpl; trivial. Qed.

Lemma replace_at_prefix (pat rep s : string) :
  prefix pat s = true ->
  Js.replace pat rep s = rep ++ Js.drop (length pat) s.
Proof. intro H. destruct s; cbn [Js.replace]; now rewrite H. Qed.

Lemma replace_no_occurrence (pat rep s : string) :
  Js.includes pat s = false -> Js.replace pat rep s = s.
Proof.
  induction s as [|c s IH]; cbn [Js.replace Js.includes]; intro H;
    apply orb_false_iff in H; destruct H as [Hp Hr]; rewrite Hp.
  - reflexivity.
  - f_equal. now apply IH.
Qed.

(** The occurrence replaced is the first, wherever it starts. *)
Lemma replace_first_occurrence (pat rep u v : string) :
  (forall k, k < length u -> prefix pat (Js.drop k (u ++ pat ++ v)) = false) ->
  Js.replace pat rep (u ++ pat ++ v) = u ++ rep ++ v.
Proof.
  induction u as [|c u IH]; intro H.
  - cbn [append]. rewrite replace_at_prefix by apply prefix_append.
    now rewrite drop_append.
  - assert (H0 : prefix pat (String c u ++ pat ++ v) = false)
      by (apply (H 0); simpl; lia).
    cbn [append] in *. cbn [Js.replace]. rewrite H0. f_equal.
    apply IH. intros k Hk. apply (H (S k)). simpl. lia.
Qed.

Lemma replace_Bearer_empty (s : string) :
  Js.replace "Bearer " "" s = "" <-> s = "" \/ s = "Bearer ".
Proof.
  split.
  - intro H. destruct (prefix "Bearer " s) eqn:Hp.
    + right. rewrite replace_at_prefix in H by assumption.
      rewrite (prefix_split _ _ Hp). cbn [append] in H. now rewrite H.
    + destruct s as [|c s]; [now left|].
      cbn [Js.replace] in H. rewrite Hp in H. discriminate.
  - intros [->| ->]; reflexivity.
Qed.

Lemma authenticateToken_noToken_iff (cfg : Config) (lib : Libraries)
    (hdr : option string) (clock : Date) :
  authenticateToken cfg lib hdr clock = Responded noToken <->
  hdr = None \/ extractToken hdr = Some "".
Proof.
  split.
  - intro H. destruct hdr as [h|]; [right|now left].
    destruct (string_dec (Js.replace "Bearer " "" h) "") as [E|E].
    + cbn. now rewrite E.
    + rewrite (authenticateToken_token cfg lib (Some h) _ clock eq_refl E)
        in H.
      now apply verifyAndAttach_not_noToken in H.
  - intros [->|H].
    + reflexivity.
    + now apply authenticateToken_empty_token.
Qed.

(** C9, as the code has it. A non-empty [Authorization] header that does
    not begin with [Bearer ] is not answered as a missing token: the
    header with its first occurrence of [Bearer ] removed, wherever that
    occurrence starts, goes to the verifier, which is the whole header when
    it has no occurrence. The no-token 401 is the answer exactly when the
    header is absent or the extracted token is empty. *)
Theorem authenticateToken_header_without_bearer_prefix
    (cfg : Config) (lib : Libraries) (header : string) (clock : Date) :
  header <> "" ->
  prefix "Bearer " header = false ->
  let t := Js.replace "Bearer " "" header in
  extractToken (Some header) = Some t /\
  t <> "" /\
  authenticateToken cfg lib (Some header) clock
  = verifyAndAttach cfg lib t clock /\
  authenticateToken cfg lib (Some header) clock <> Responded noToken /\
  (Js.includes "Bearer " header = false -> t = header) /\
  (forall u v,
     header = u ++ "Bearer " ++ v ->
     (forall k, k < length u ->
                prefix "Bearer " (Js.drop k header) = false) ->
     t = u ++ v) /\
  (forall hdr,
     authenticateToken cfg lib hdr clock = Responded noToken <->
     hdr = None \/ extractToken hdr = Some "").
Proof.
  intros Hne Hp t.
  assert (Ht : t <> "").
  { intro E. apply replace_Bearer_empty in E. destruct E as [E|E].
    - contradiction.
    - rewrite E in Hp. discriminate. }
  assert (Ha : authenticateToken cfg lib (Some header) clock
               = verifyAndAttach cfg lib t clock)
    by now apply authenticateToken_token.
  repeat split; trivial.
  - rewrite Ha. apply verifyAndAttach_not_noToken.
  - intro Hi. now apply replace_no_occurrence.
  - intros u v -> Hk. unfold t.
    rewrite replace_first_occurrence by assumption. reflexivity.
  - apply authenticateToken_noToken_iff.
  - apply authenticateToken_noToken_iff.
Qed.

Lemma authenticateToken_header_without_bearer_prefix_witness :
  extractToken (Some "Basic dXNlcjpwdw==") = Some "Basic dXNlcjpwdw==" /\
  authenticateToken Fixture.cfg Fixture.lib (Some "Basic dXNlcjpwdw==")
    1700000500000%Z
  = Responded (failure 401 "Invalid token").
Proof.
  destruct (authenticateToken_header_without_bearer_prefix Fixture.cfg
              Fixture.lib "Basic dXNlcjpwdw==" 1700000500000%Z)
    as (He & _ & Ha & _).
  - discriminate.
  - reflexivity.
  - split; [exact He | rewrite Ha; reflexivity].
Defined.

(** C9, as stated, fails: the header below does not begin with [Bearer ],
    and what reaches the verifier is not the whole header, an occurrence of
    [Bearer ] that is not leading having been removed. *)
Lemma extractToken_removes_inner_bearer :
  "xBearer y" <> "" /\
  prefix "Bearer " "xBearer y" = false /\
  extractToken (Some "xBearer y") = Some "xy" /\
  (forall cfg lib clock,
     authenticateToken cfg lib (Some "xBearer y") clock
     = verifyAndAttach cfg lib "xy" clock) /\
  "xy" <> "xBearer y".
Proof.
  repeat split; discriminate.
Qed.

(** ** Writes to the store *)

Lemma updateFirst_map {B} (g : Student -> B) (p : Student -> bool)
    (f : Student -> Student) (st : Store) :
  (forall x, In x st -> p x = true -> g (f x) = g x) ->
  map g (updateFirst p f st) = map g st.
Proof.
  induction st as [|s st IH]; intro H; simpl; trivial.
  destruct (p s) eqn:Hp; simpl.
  - f_equal. apply H; simpl; auto.
  - f_equal. apply IH. intros x Hx. apply H. simpl; auto.
Qed.

Lemma updateFirst_Forall (P : Student -> Prop) (p : Student -> bool)
    (f : Student -> Student) (st : Store) :
  Forall P st ->
  (forall x, In x st -> p x = true -> P x -> P (f x)) ->
  Forall P (updateFirst p f st).
Proof.
  induction 1 as [|s st Hs Hst IH]; intro H; simpl; [constructor|].
  destruct (p s) eqn:Hp.
  - constructor; trivial. apply H; simpl; auto.
  - constructor; trivial. apply IH. intros x Hx. apply H. simpl; auto.
Qed.

Lemma updateFirst_Forall2 (R : Student -> Student -> Prop)
    (p : Student -> bool) (f : Student -> Student) (st : Store) :
  (forall x, R x x) ->
  (forall x, In x st -> p x = true -> R x (f x)) ->
  Forall2 R st (updateFirst p f st).
Proof.
  intros Hrefl. induction st as [|s st IH]; intro H; simpl; [constructor|].
  destruct (p s) eqn:Hp.
  - constructor.
    + apply H; simpl; auto.
    + clear -Hrefl. induction st; constructor; auto.
  - constructor; trivial. apply IH. intros x Hx. apply H. simpl; auto.
Qed.

Lemma updateFirst_In (p : Student -> bool) (f : Student -> Student)
    (st : Store) (y : Student) :
  In y (updateFirst p f st) ->
  In y st \/ exists x, In x st /\ p x = true /\ y = f x.
Proof.
  induction st as [|s st IH]; simpl; [tauto|].
  destruct (p s) eqn:Hp; simpl.
  - intros [<-|H]; [right; exists s|]; auto.
  - intros [<-|H]; auto.
    destruct (IH H) as [|(x & Hx & Hpx & ->)]; auto.
    right. exists x. auto.
Qed.

Lemma NoDup_map_inj {A B} (f : A -> B) (l : list A) (x y : A) :
  NoDup (map f l) -> In x l -> In y l -> f x = f y -> x = y.
Proof.
  induction l as [|a l IH]; simpl; intros Hnd Hx Hy Hf; [contradiction|].
  inversion Hnd as [|? ? Hnotin Hnd']; subst.
  destruct Hx as [->|Hx], Hy as [->|Hy]; trivial.
  - exfalso. apply Hnotin. rewrite Hf. now apply in_map.
  - exfalso. apply Hnotin. rewrite <- Hf. now apply in_map.
  - now apply IH.
Qed.

Lemma NoDup_map_snoc {A B} (f : A -> B) (l : list A) (x : A) :
  NoDup (map f l) -> ~ In (f x) (map f l) -> NoDup (map f (l ++ [x])).
Proof.
  intros Hnd Hx. rewrite map_app. simpl.
  apply NoDup_app; trivial.
  - repeat constructor. simpl. tauto.
  - intros b Hb [<-|[]]. contradiction.
Qed.

Lemma find_unique {B} (g : Student -> B) (eqb : B -> B -> bool)
    (st : Store) (a : Student) (v : B) :
  (forall x y, eqb x y = true <-> x = y) ->
  NoDup (map g st) -> In a st -> g a = v ->
  find (fun s => eqb (g s) v) st = Some a.
Proof.
  intros Heqb Hnd Hin Hv.
  destruct (find_In_some (fun s => eqb (g s) v) st a Hin) as [b Hb].
  - now apply Heqb.
  - rewrite Hb. f_equal.
    apply find_some in Hb. destruct Hb as [Hbin Hbv].
    apply Heqb in Hbv.
    apply (NoDup_map_inj g st b a); congruence.
Qed.

(** What [save] has done when it returns. *)
Lemma save_Ok (lib : Libraries) (env : Env) (st st' : Store) (d : Document)
    (s' : Student) :
  save lib env st d = Js.Ok (s', st') ->
  validate lib (dataOf (doc d)) = [] /\
  exists pw,
    (if isModified "password" d
     then bcrypt_hash lib (password (doc d)) (salt env) = Js.Ok pw
     else pw = password (doc d)) /\
    ((modifiedPaths d = [] /\ s' = set_password pw (doc d) /\ st' = st) \/
     (s' = set_updatedAt (now env) (set_password pw (doc d)) /\
      st' = updateFirst (fun x => String.eqb (_id x) (_id (doc d)))
                        (fun _ => s') st)).
Proof.
  unfold save, preSaveHook. intro H.
  destruct (validate lib (dataOf (doc d))) as [|err errs]; [|discriminate].
  split; trivial.
  destruct (isModified "password" d); cbn [negb] in H.
  - destruct (bcrypt_hash lib (password (doc d)) (salt env)) as [h|e];
      [|discriminate].
    exists h. split; trivial. cbn in H.
    destruct (modifiedPaths d); inversion H; subst; auto.
  - exists (password (doc d)). split; trivial. cbn in H.
    destruct (modifiedPaths d); inversion H; subst; auto.
Qed.

(** A document that passes validation has its three required strings, so
    the last branch of [create] is the validation failure and nothing
    else. *)
Lemma validate_required (lib : Libraries) (d : StudentData.t) :
  validate lib d = [] ->
  exists e p n, StudentData.email d = Some e /\
                StudentData.password d = Some p /\
                StudentData.fullName d = Some n.
Proof.
  unfold validate. intro H.
  apply app_eq_nil in H. destruct H as [He H].
  apply app_eq_nil in H. destruct H as [Hp H].
  apply app_eq_nil in H. destruct H as [Hn _].
  destruct (StudentData.email d) as [e|]; [|discriminate].
  destruct (StudentData.password d) as [p|]; [|discriminate].
  destruct (StudentData.fullName d) as [n|]; [|discriminate].
  now exists e, p, n.
Qed.

(** What [create] has done when it returns. *)
Lemma create_Ok (lib : Libraries) (env : Env) (st st' : Store)
    (data : StudentData.t) (s : Student) :
  create lib env st data = Js.Ok (s, st') ->
  let d := applySetters data in
  validate lib d = [] /\
  (exists p, StudentData.password d = Some p /\
             bcrypt_hash lib p (salt env) = Js.Ok (password s)) /\
  dataOf s = StudentData.mk (StudentData.email d) (Some (password s))
               (StudentData.fullName d) (StudentData.personalInfo d)
               (StudentData.education d) (StudentData.skills d)
               (StudentData.coursesAndCertifications d)
               (StudentData.trainingAndInternships d) /\
  st' = (st ++ [s])%list /\
  ~ In (_id s) (map _id st) /\ ~ In (email s) (map email st).
Proof.
  intros H d. unfold create in H. fold d in H.
  destruct (validate lib d) as [|err errs] eqn:Hv.
  2:{ destruct (StudentData.email d), (StudentData.password d),
               (StudentData.fullName d); discriminate. }
  destruct (StudentData.email d) as [e|] eqn:He; [|discriminate].
  destruct (StudentData.password d) as [p|] eqn:Hp; [|discriminate].
  destruct (StudentData.fullName d) as [n|] eqn:Hn; [|discriminate].
  unfold preSaveHook in H. cbn [negb] in H.
  destruct (bcrypt_hash lib p (salt env)) as [h|err] eqn:Hh; [|discriminate].
  cbn in H. unfold insertOne in H.
  match type of H with
  | context [existsb ?f st] => destruct (existsb f st) eqn:Hex
  end; [discriminate|].
  cbn in H. inversion H; subst s st'; clear H. cbn. cbn in Hex.
  apply not_true_iff_false in Hex.
  split; [reflexivity|]. split; [eauto|].
  split; [reflexivity|]. split; [reflexivity|].
  split; intro Hin; apply in_map_iff in Hin;
    destruct Hin as (x & Hx & Hxin); apply Hex, existsb_exists;
    exists x; (split; [assumption|]); rewrite Hx, String.eqb_refl.
  - reflexivity.
  - apply orb_true_r.
Qed.

(** ** What a request does to the store *)

Lemma tracks_load (s : Student) : tracks s (load s).
Proof. repeat split. Qed.

Lemma tracks_assign_lastLoginAt (s : Student) (d : Document) (v : Date) :
  tracks s d -> tracks s (assign_lastLoginAt v d).
Proof.
  unfold assign_lastLoginAt. intros (Hi & Hu & Hd & Hp).
  destruct (eqb_date _ _); repeat split; trivial.
Qed.

Lemma tracks_assign_passwordChangedAt (s : Student) (d : Document)
    (v : Date) :
  tracks s d -> tracks s (assign_passwordChangedAt v d).
Proof.
  unfold assign_passwordChangedAt. intros (Hi & Hu & Hd & Hp).
  destruct (eqb_date _ _); repeat split; trivial.
Qed.

Lemma tracks_assign_password (s : Student) (v : string) :
  tracks s (assign_password v (load s)).
Proof.
  unfold assign_password. cbn.
  destruct (String.eqb v (password s)) eqn:E; repeat split; trivial.
  cbn. discriminate.
Qed.

Lemma findOne_In (st : Store) (v : option string) (s : Student) :
  findOne st v = Some s -> In s st /\ exists e, v = Some e /\
                                                email s = castEmail e.
Proof.
  destruct v as [e|]; [|discriminate]. simpl. intro H.
  apply find_some in H. destruct H as [Hin He].
  apply String.eqb_eq in He. eauto.
Qed.

Lemma findById_In (st : Store) (id : ObjectId) (s : Student) :
  findById st id = Some s -> In s st /\ _id s = id.
Proof.
  unfold findById. intro H. apply find_some in H. destruct H as [Hin He].
  now apply String.eqb_eq in He.
Qed.

Lemma buildStudentData_Ok (b : RegisterBody.t) (data : StudentData.t) :
  buildStudentData b = Js.Ok data ->
  StudentData.email data = RegisterBody.email b /\
  StudentData.password data = RegisterBody.password b.
Proof.
  unfold buildStudentData.
  destruct (RegisterBody.skills b) as [[items|s]|]; cbn [Js.bind];
    intro H; inversion H; split; reflexivity.
Qed.

Lemma register_effect (cfg : Config) (lib : Libraries) (env : Env)
    (st : Store) (b : RegisterBody.t) :
  Effect lib env (submittedPasswords (PostRegister b)) st
         (snd (register cfg lib env st b)).
Proof.
  unfold register. destruct (findOne st (RegisterBody.email b)).
  - now apply Untouched.
  - destruct (buildStudentData b) as [data|e] eqn:Hb; cbn [Js.bind].
    + destruct (create lib env st data) as [[s st']|e] eqn:Hc.
      * pose proof Hc as Hc'. apply create_Ok in Hc'.
        destruct Hc' as (_ & (p & Hp & _) & _).
        apply buildStudentData_Ok in Hb. destruct Hb as [_ Hb].
        cbn in Hp. rewrite Hb in Hp.
        refine (Created lib env _ st _ data s p _ _ Hc).
        -- cbn. now rewrite Hb.
        -- cbn. rewrite Hp. now left.
      * now apply Untouched.
    + now apply Untouched.
Qed.

Lemma login_effect (cfg : Config) (lib : Libraries) (env : Env)
    (st : Store) (b : LoginBody.t) :
  Effect lib env (submittedPasswords (PostLogin b)) st
         (snd (login cfg lib env st b)).
Proof.
  unfold login.
  destruct (LoginBody.email b) as [e|]; [|now apply Untouched].
  destruct (LoginBody.password b) as [p|]; [|now apply Untouched].
  destruct (Js.falsy (Some e) || Js.falsy (Some p)); [now apply Untouched|].
  destruct (findOne st (Some e)) as [student|] eqn:Hf;
    [|now apply Untouched].
  destruct (comparePassword lib student p) as [[]|]; try now apply Untouched.
  destruct (save lib env st _) as [[s' st']|] eqn:Hs; [|now apply Untouched].
  refine (Saved lib env _ st _ student _ s' _ _ _ Hs).
  - now apply findOne_In in Hf.
  - apply tracks_assign_lastLoginAt, tracks_load.
  - unfold assign_lastLoginAt, load. cbn [doc modifiedPaths].
    destruct (eqb_date (Some (now env)) (lastLoginAt student));
      discriminate.
Qed.

Lemma changePassword_effect (lib : Libraries) (env : Env) (st : Store)
    (user : Decoded) (b : ChangePasswordBody.t) (h : option string) :
  Effect lib env (submittedPasswords (PostChangePassword h b)) st
         (snd (changePassword lib env st user b)).
Proof.
  destruct b as [[np|] [cp|]]; unfold changePassword;
    cbn [ChangePasswordBody.newPassword ChangePasswordBody.confirmPassword
         submittedPasswords app];
    try now apply Untouched.
  destruct (Js.falsy (Some np) || Js.falsy (Some cp)); [now apply Untouched|].
  destruct (negb (String.eqb np cp)); [now apply Untouched|].
  destruct (length np <? 6); [now apply Untouched|].
  destruct (castToObjectId lib (userId user)) as [id|];
    [|now apply Untouched].
  destruct (findById st id) as [student|] eqn:Hf;
    [|now apply Untouched].
  destruct (save lib env st _) as [[s' st']|] eqn:Hs; [|now apply Untouched].
  assert (He : Effect lib env [np; cp] st st').
  { refine (Saved lib env _ st _ student _ s' _ _ _ Hs).
    - now apply findById_In in Hf.
    - apply tracks_assign_passwordChangedAt, tracks_assign_password.
    - unfold assign_passwordChangedAt, assign_password, load.
      cbn [doc modifiedPaths].
      destruct (String.eqb np (password student)); cbn [doc modifiedPaths];
        match goal with
        | |- context [eqb_date ?x ?y] => destruct (eqb_date x y)
        end; cbn; try discriminate; now left. }
  destruct (findById st' id); trivial.
  destruct (bcrypt_compare lib np _) as [[]|]; trivial.
Qed.

Lemma handle_effect (cfg : Config) (lib : Libraries) (env : Env)
    (st : Store) (req : Request) :
  Effect lib env (submittedPasswords req) st
         (snd (handle cfg lib env st req)).
Proof.
  destruct req as [b|b|h b|h]; cbn [handle].
  - apply register_effect.
  - apply login_effect.
  - unfold protected. destruct (authenticateToken cfg lib h (now env)).
    + now apply Untouched.
    + apply changePassword_effect.
  - unfold protected. destruct (authenticateToken cfg lib h (now env)).
    + now apply Untouched.
    + unfold logout.
      destruct (castToObjectId lib (userId user)) as [id|].
      * now apply (LoggedOut lib env _ st _ id).
      * now apply Untouched.
Qed.

(** ** Invariants of the store *)

Lemma effect_hashedStore (lib : Libraries) (env : Env) (subm : list string)
    (st st' : Store) :
  Effect lib env subm st st' -> hashedStore lib st -> hashedStore lib st'.
Proof.
  unfold hashedStore.
  intros [->|data s p0 _ _ Hc|student d s' Hin Ht _ Hs|id ->] Hst; trivial.
  - apply create_Ok in Hc.
    destruct Hc as (_ & (p & _ & Hh) & _ & -> & _).
    apply Forall_app. split; trivial.
    constructor; [|constructor]. now exists p, (salt env).
  - apply save_Ok in Hs.
    destruct Hs as (_ & pw & Hpw & [(_ & _ & ->)|(-> & ->)]); trivial.
    apply updateFirst_Forall; trivial.
    intros x _ _ _. cbn.
    destruct (isModified "password" d) eqn:Hm.
    + now exists (password (doc d)), (salt env).
    + destruct Ht as (_ & _ & _ & Hp). rewrite Hpw, (Hp Hm).
      rewrite Forall_forall in Hst. now apply Hst.
  - apply updateFirst_Forall; trivial.
Qed.

Lemma effect_uniqueKeys (lib : Libraries) (env : Env) (subm : list string)
    (st st' : Store) :
  Effect lib env subm st st' -> uniqueKeys st -> uniqueKeys st'.
Proof.
  unfold uniqueKeys.
  intros [->|data s p0 _ _ Hc|student d s' Hin Ht _ Hs|id ->] [Hid Hem];
    auto.
  - apply create_Ok in Hc.
    destruct Hc as (_ & _ & _ & -> & Hi & He).
    split; now apply NoDup_map_snoc.
  - apply save_Ok in Hs.
    destruct Hs as (_ & pw & _ & [(_ & _ & ->)|(Hs' & ->)]); auto.
    destruct Ht as (Hi & _ & Hd & _).
    assert (Hi' : _id s' = _id student) by (rewrite Hs'; exact Hi).
    assert (He' : email s' = email student).
    { rewrite Hs'. cbn.
      pose proof (f_equal StudentData.email (Hd "")) as E. cbn in E.
      congruence. }
    rewrite !updateFirst_map; auto.
    + intros x Hx Hp. apply String.eqb_eq in Hp.
      rewrite He'. f_equal. symmetry.
      apply (NoDup_map_inj _id st x student); congruence.
    + intros x Hx Hp. apply String.eqb_eq in Hp. congruence.
  - unfold findByIdAndUpdate_lastLogoutAt. rewrite !updateFirst_map; auto.
Qed.

Lemma tracks_email (student : Student) (d : Document) (pw : string) :
  tracks student d -> email (set_password pw (doc d)) = email student.
Proof.
  intros (_ & _ & Hd & _).
  pose proof (f_equal StudentData.email (Hd pw)) as E. cbn in E. cbn.
  congruence.
Qed.

Lemma effect_castStore (lib : Libraries) (env : Env) (subm : list string)
    (st st' : Store) :
  Effect lib env subm st st' -> castStore st -> castStore st'.
Proof.
  unfold castStore.
  intros [->|data s p0 _ _ Hc|student d s' Hin Ht _ Hs|id ->] Hst; trivial.
  - apply create_Ok in Hc. destruct Hc as (_ & _ & Hd & -> & _).
    apply Forall_app. split; trivial. constructor; [|constructor].
    pose proof (f_equal StudentData.email Hd) as E. cbn in E.
    destruct (StudentData.email data) as [e0|]; [|discriminate].
    exists e0. cbn in E. congruence.
  - apply save_Ok in Hs.
    destruct Hs as (_ & pw & _ & [(_ & _ & ->)|(-> & ->)]); trivial.
    apply updateFirst_Forall; trivial. intros x _ _ _.
    change (exists e0, email (set_password pw (doc d)) = castEmail e0).
    rewrite (tracks_email student d pw Ht).
    rewrite Forall_forall in Hst. now apply Hst.
  - apply updateFirst_Forall; trivial.
Qed.

Lemma validatePassword_long (pw : string) :
  6 <= length pw -> validatePassword (Some pw) = [].
Proof.
  intro H. unfold validatePassword.
  destruct pw as [|c pw]; [simpl in H; lia|]. cbn [Js.falsy String.eqb].
  destruct (length (String c pw) <? 6) eqn:E; trivial.
  apply Nat.ltb_lt in E. lia.
Qed.

Lemma validate_set_password (lib : Libraries) (s : Student) (pw : string) :
  validate lib (dataOf s) = [] ->
  validatePassword (Some pw) = [] ->
  validate lib (dataOf (set_password pw s)) = [].
Proof.
  unfold validate. cbn. intros H Hpw.
  apply app_eq_nil in H. destruct H as [He H].
  apply app_eq_nil in H. destruct H as [_ H].
  now rewrite He, Hpw.
Qed.

Section HashLength.

Variable lib : Libraries.

(** A bcrypt hash has sixty characters; six are enough here, the least
    length the schema asks of a password. *)
Hypothesis hash_length : forall p s h,
  bcrypt_hash lib p s = Js.Ok h -> 6 <= length h.

Lemma effect_validStore (env : Env) (subm : list string)
    (st st' : Store) :
  Effect lib env subm st st' -> validStore lib st -> validStore lib st'.
Proof.
  unfold validStore.
  intros [->|data s p0 _ _ Hc|student d s' Hin Ht _ Hs|id ->] Hst; trivial.
  - apply create_Ok in Hc.
    destruct Hc as (Hv & (p & _ & Hh) & Hd & -> & _).
    apply Forall_app. split; trivial.
    constructor; [|constructor]. rewrite Hd.
    unfold validate in *. cbn in *.
    apply app_eq_nil in Hv. destruct Hv as [He Hv].
    apply app_eq_nil in Hv. destruct Hv as [_ Hv].
    rewrite He, (validatePassword_long _ (hash_length _ _ _ Hh)).
    exact Hv.
  - apply save_Ok in Hs.
    destruct Hs as (Hv & pw & Hpw & [(_ & _ & ->)|(-> & ->)]); trivial.
    apply updateFirst_Forall; trivial.
    intros x _ _ _.
    change (validate lib (dataOf (set_password pw (doc d))) = []).
    destruct (isModified "password" d).
    + apply validate_set_password; trivial.
      apply validatePassword_long. now apply hash_length in Hpw.
    + subst pw. now destruct (doc d).
  - apply updateFirst_Forall; trivial.
Qed.

End HashLength.

Lemma reachable_run (cfg : Config) (lib : Libraries) (st : Store)
    (reqs : list (Env * Request)) :
  reachable cfg lib st -> reachable cfg lib (run cfg lib st reqs).
Proof.
  revert st. induction reqs as [|[env req] reqs IH]; intros st H; simpl.
  - exact H.
  - apply IH. now constructor.
Qed.

Lemma reachable_hashedStore (cfg : Config) (lib : Libraries) (st : Store) :
  reachable cfg lib st -> hashedStore lib st.
Proof.
  induction 1 as [|st env req _ IH]; [constructor|].
  exact (effect_hashedStore lib env _ _ _
           (handle_effect cfg lib env st req) IH).
Qed.

Lemma reachable_uniqueKeys (cfg : Config) (lib : Libraries) (st : Store) :
  reachable cfg lib st -> uniqueKeys st.
Proof.
  induction 1 as [|st env req _ IH]; [split; constructor|].
  exact (effect_uniqueKeys lib env _ _ _
           (handle_effect cfg lib env st req) IH).
Qed.

Lemma reachable_castStore (cfg : Config) (lib : Libraries) (st : Store) :
  reachable cfg lib st -> castStore st.
Proof.
  induction 1 as [|st env req _ IH]; [constructor|].
  exact (effect_castStore lib env _ _ _
           (handle_effect cfg lib env st req) IH).
Qed.

Lemma reachable_validStore (cfg : Config) (lib : Libraries) (st : Store) :
  (forall p s h, bcrypt_hash lib p s = Js.Ok h -> 6 <= length h) ->
  reachable cfg lib st -> validStore lib st.
Proof.
  intro Hlen. induction 1 as [|st env req _ IH]; [constructor|].
  exact (effect_validStore lib Hlen env _ _ _
           (handle_effect cfg lib env st req) IH).
Qed.

(** ** Stored passwords *)

(** Where the password of a student in the store after a request comes
    from: it was in the store before, or it is the hash of a password of
    the request under the salt generated for it. *)
Lemma effect_origin (lib : Libraries) (env : Env) (subm : list string)
    (st st' : Store) (a' : Student) :
  Effect lib env subm st st' ->
  In a' st' ->
  (exists a, In a st /\ password a' = password a) \/
  (exists p, In p subm /\
             bcrypt_hash lib p (salt env) = Js.Ok (password a')).
Proof.
  intros [->|data s p Hp Hsub Hc|student d s' Hin Ht Hm Hs|id ->] Ha.
  - left. now exists a'.
  - apply create_Ok in Hc.
    destruct Hc as (_ & (p' & Hp' & Hh) & _ & -> & _).
    cbn in Hp'. rewrite Hp in Hp'. injection Hp' as <-.
    apply in_app_or in Ha. destruct Ha as [Ha|[<-|[]]].
    + left. now exists a'.
    + right. now exists p.
  - apply save_Ok in Hs.
    destruct Hs as (_ & pw & Hpw & [(_ & _ & ->)|(Hs' & ->)]).
    + left. now exists a'.
    + apply updateFirst_In in Ha.
      destruct Ha as [Ha|(x & _ & _ & ->)]; [left; now exists a'|].
      rewrite Hs'. cbn.
      destruct (isModified "password" d) eqn:E.
      * right. exists (password (doc d)). auto.
      * left. exists student. destruct Ht as (_ & _ & _ & Hpd).
        split; trivial. now rewrite Hpw, Hpd.
  - apply updateFirst_In in Ha.
    destruct Ha as [Ha|(x & Hx & _ & ->)]; left; [now exists a'|].
    now exists x.
Qed.

Lemma run_origin (cfg : Config) (lib : Libraries)
    (reqs : list (Env * Request)) (st : Store) (a' : Student) :
  In a' (run cfg lib st reqs) ->
  (exists a, In a st /\ password a' = password a) \/
  (exists env req p,
     In (env, req) reqs /\ In p (submittedPasswords req) /\
     bcrypt_hash lib p (salt env) = Js.Ok (password a')).
Proof.
  revert st. induction reqs as [|[env req] reqs IH]; intros st Ha.
  - left. now exists a'.
  - cbn [run] in Ha. destruct (IH _ Ha) as [(a1 & Ha1 & E)|H].
    + destruct (effect_origin lib env _ st _ a1
                  (handle_effect cfg lib env st req) Ha1)
        as [(a & Hin & E')|(p & Hp & Hh)].
      * left. exists a. split; congruence.
      * right. exists env, req, p. rewrite E. repeat split; simpl; auto.
    + destruct H as (env' & req' & p & Hin & Hp & Hh).
      right. exists env', req', p. repeat split; simpl; auto.
Qed.

(** C5, as the code has it. Whatever requests the server has handled, the
    password of every stored student is an output of the hashing step of
    the pre-save hook, applied to a password some request submitted and the
    salt generated for that request: no handler writes a submitted password
    as it came. *)
Theorem stored_password_is_hash_output
    (cfg : Config) (lib : Libraries) (reqs : list (Env * Request))
    (a : Student) :
  In a (run cfg lib [] reqs) ->
  hashed lib (password a) /\
  exists env req p,
    In (env, req) reqs /\ In p (submittedPasswords req) /\
    bcrypt_hash lib p (salt env) = Js.Ok (password a).
Proof.
  intro Hin.
  destruct (run_origin cfg lib reqs [] a Hin)
    as [(a0 & [] & _)|(env & req & p & H1 & H2 & H3)].
  split.
  - now exists p, (salt env).
  - now exists env, req, p.
Qed.

Lemma stored_password_is_hash_output_witness :
  hashed Fixture.lib (password Fixture.storedAna).
Proof.
  apply (stored_password_is_hash_output Fixture.cfg Fixture.lib
           [(Fixture.env0, PostRegister Fixture.registerAna)]
           Fixture.storedAna).
  left. reflexivity.
Defined.

Lemma run_app (cfg : Config) (lib : Libraries) (st : Store)
    (r1 r2 : list (Env * Request)) :
  run cfg lib st (r1 ++ r2)%list = run cfg lib (run cfg lib st r1) r2.
Proof.
  revert st. induction r1 as [|[env req] r1 IH]; intro st; simpl; trivial.
Qed.

(** With any library, a client can send the stored value of a password as
    the password of a request: the store then holds a value equal to a
    submitted one. *)
Lemma stored_password_resubmitted (cfg : Config) (lib : Libraries)
    (reqs : list (Env * Request)) (env : Env) (a : Student) :
  In a (run cfg lib [] reqs) ->
  let req := PostLogin (LoginBody.mk None (Some (password a))) in
  In a (run cfg lib [] (reqs ++ [(env, req)])%list) /\
  In (password a) (submittedPasswords req).
Proof.
  intros Hin req. rewrite run_app. split.
  - exact Hin.
  - left. reflexivity.
Qed.

(** C5, as stated, fails: after the two requests below the stored password
    of Ana equals the password the second request submitted. *)
Lemma stored_password_equals_a_submitted_one :
  let reqs :=
    [(Fixture.env0, PostRegister Fixture.registerAna);
     (Fixture.env1,
      PostLogin (LoginBody.mk (Some "ana@example.com")
                              (Some "$2a$10$saltsecret1")))] in
  exists a,
    In a (run Fixture.cfg Fixture.lib [] reqs) /\
    In (password a) (flat_map (fun r => submittedPasswords (snd r)) reqs).
Proof.
  exists Fixture.storedAna. split.
  - left. reflexivity.
  - right. left. reflexivity.
Qed.

(** ** Logout *)

Lemma logout_answer (lib : Libraries) (env : Env) (st st0 : Store)
    (user : Decoded) :
  fst (logout lib env st user) = fst (logout lib env st0 user).
Proof.
  unfold logout. now destruct (castToObjectId lib (userId user)).
Qed.

(** The change-password handler answers 200, 400, 404 or 500. *)
Lemma changePassword_status (lib : Libraries) (env : Env) (st : Store)
    (user : Decoded) (b : ChangePasswordBody.t) :
  In (status (fst (changePassword lib env st user b))) [200; 400; 404; 500].
Proof.
  unfold changePassword.
  destruct (ChangePasswordBody.newPassword b) as [np|]; [|cbn; auto].
  destruct (ChangePasswordBody.confirmPassword b) as [cp|]; [|cbn; auto].
  destruct (Js.falsy (Some np) || Js.falsy (Some cp)); [cbn; auto|].
  destruct (negb (String.eqb np cp)); [cbn; auto|].
  destruct (length np <? 6); [cbn; auto|].
  destruct (castToObjectId lib (userId user)) as [id|]; [|cbn; auto 6].
  destruct (findById st id) as [student|]; [|cbn; auto].
  destruct (save lib env st _) as [[s' st']|]; [|cbn; auto 6].
  destruct (findById st' id) as [a'|]; [|cbn; auto 6].
  destruct (bcrypt_compare lib np (password a')) as [[]|]; cbn; auto 6.
Qed.

(** Whether a protected route answers 401 is for the middleware alone to
    say, whatever the store. *)
Lemma changePassword_401_store (cfg : Config) (lib : Libraries) (env : Env)
    (st st0 : Store) (hdr : option string) (b : ChangePasswordBody.t) :
  status (fst (handle cfg lib env st (PostChangePassword hdr b))) = 401 ->
  status (fst (handle cfg lib env st0 (PostChangePassword hdr b))) = 401.
Proof.
  cbn [handle]. unfold protected.
  destruct (authenticateToken cfg lib hdr (now env)) as [resp|user];
    trivial.
  intro H. pose proof (changePassword_status lib env st user b) as Hin.
  rewrite H in Hin. cbn in Hin.
  repeat (destruct Hin as [Hin|Hin]; [discriminate|]). contradiction.
Qed.

(** C7, as the code has it. An authenticated logout whose [userId] casts to
    an ObjectId answers 200 and writes [lastLogoutAt] and, by the schema's
    timestamps, [updatedAt] of the student of that id, and nothing else in
    the store; one whose [userId] does not cast answers 500 and writes
    nothing. No token is revoked: to a later request, whatever its header and
    its time, the logout route gives on the store the logout left the answer
    it gives on the store before it, and the change-password route answers
    401 on the one exactly when it does on the other. *)
Theorem logout_writes_timestamps_only
    (cfg : Config) (lib : Libraries) (env : Env) (st : Store)
    (hdr : option string) (user : Decoded) :
  authenticateToken cfg lib hdr (now env) = Next user ->
  let r := handle cfg lib env st (PostLogout hdr) in
  (forall id,
     castToObjectId lib (userId user) = Js.Ok id ->
     fst r = mkResponse 200
               (JObj [("success", JBool true);
                      ("message", JStr "Logged out successfully")]) /\
     Forall2 (logoutFrame id env) st (snd r)) /\
  (forall error,
     castToObjectId lib (userId user) = Js.Throw error ->
     fst r = failureWith 500 "Logout failed" error /\ snd r = st) /\
  map withoutLogoutStamp (snd r) = map withoutLogoutStamp st /\
  (forall hdr' env',
     fst (handle cfg lib env' (snd r) (PostLogout hdr'))
     = fst (handle cfg lib env' st (PostLogout hdr')) /\
     forall b,
       status (fst (handle cfg lib env' (snd r) (PostChangePassword hdr' b)))
       = 401 <->
       status (fst (handle cfg lib env' st (PostChangePassword hdr' b)))
       = 401).
Proof.
  intros Ha r. unfold r. cbn [handle]. unfold protected at 1 2 3 4 5.
  rewrite Ha. unfold logout at 1 2 3 4 5.
  split; [|split; [|split]].
  - intros id Hid. rewrite Hid. cbn [fst snd]. split; trivial.
    unfold findByIdAndUpdate_lastLogoutAt. apply updateFirst_Forall2.
    + intro x. now left.
    + intros x _ Hx. right. apply String.eqb_eq in Hx. now split.
  - intros error Herr. rewrite Herr. now split.
  - destruct (castToObjectId lib (userId user)) as [id|]; cbn [snd]; trivial.
    unfold findByIdAndUpdate_lastLogoutAt. now apply updateFirst_map.
  - intros hdr' env'. split.
    + unfold protected.
      destruct (authenticateToken cfg lib hdr' (now env')); trivial.
      apply logout_answer.
    + intro b. split; apply (changePassword_401_store cfg lib env').
Qed.

Lemma logout_writes_timestamps_only_witness :
  let hdr := Some "Bearer token-64b000000000000000000001" in
  let st' := snd (handle Fixture.cfg Fixture.lib Fixture.env1 Fixture.store1
                    (PostLogout hdr)) in
  map withoutLogoutStamp st' = map withoutLogoutStamp Fixture.store1 /\
  status (fst (handle Fixture.cfg Fixture.lib Fixture.env1 st'
                 (PostLogout hdr))) = 200.
Proof.
  intros hdr st'.
  destruct (logout_writes_timestamps_only Fixture.cfg Fixture.lib
              Fixture.env1 Fixture.store1 hdr Fixture.ana eq_refl)
    as (_ & _ & Hframe & Hlater).
  split.
  - exact Hframe.
  - destruct (Hlater hdr Fixture.env1) as [Hl _].
    fold st' in Hl. rewrite Hl. reflexivity.
Defined.

(** C7, as stated, fails: the logout below changes [updatedAt] of the
    stored student as well as [lastLogoutAt]. *)
Lemma logout_changes_updatedAt :
  let st' := snd (handle Fixture.cfg Fixture.lib Fixture.env1 Fixture.store1
                    (PostLogout
                       (Some "Bearer token-64b000000000000000000001"))) in
  map lastLogoutAt st' = [Some 1700000500000%Z] /\
  map updatedAt Fixture.store1 = [1700000000000%Z] /\
  map updatedAt st' = [1700000500000%Z].
Proof. repeat split. Qed.

(** ** Login by email, whatever its letter case *)

Lemma castEmail_empty (e : string) (a : Student) (lib : Libraries) :
  validate lib (dataOf a) = [] -> castEmail e = email a -> e <> "".
Proof.
  intros Hv He ->. cbn in He. unfold validate in Hv.
  apply app_eq_nil in Hv. destruct Hv as [Hv _].
  cbn in Hv. rewrite <- He in Hv. discriminate.
Qed.

Lemma save_lastLoginAt (lib : Libraries) (env : Env) (st : Store)
    (a : Student) :
  validate lib (dataOf a) = [] ->
  exists a' st',
    save lib env st (assign_lastLoginAt (now env) (load a))
    = Js.Ok (a', st') /\
    _id a' = _id a /\ email a' = email a /\ fullName a' = fullName a /\
    userType a' = userType a.
Proof.
  intro Hv. unfold save, assign_lastLoginAt, load. cbn [doc modifiedPaths].
  destruct (eqb_date (Some (now env)) (lastLoginAt a));
    cbn [doc modifiedPaths].
  - rewrite Hv. cbn. destruct a; cbn. eauto 10.
  - change (dataOf (set_lastLoginAt (Some (now env)) a)) with (dataOf a).
    rewrite Hv. cbn. eauto 10.
Qed.

(** On a store whose emails are unique and whose students are valid, a
    login under any spelling that casts to a stored email, with a password
    that verifies, succeeds. *)
Lemma login_succeeds (cfg : Config) (lib : Libraries) (env : Env)
    (st : Store) (a : Student) (e pw : string) :
  NoDup (map email st) ->
  In a st ->
  validate lib (dataOf a) = [] ->
  castEmail e = email a ->
  pw <> "" ->
  comparePassword lib a pw = Js.Ok true ->
  fst (login cfg lib env st (LoginBody.mk (Some e) (Some pw)))
  = mkResponse 200
      (JObj [("success", JBool true);
             ("message", JStr "Login successful");
             ("token", JStr (issueToken cfg lib env a));
             ("student", publicStudent a)]).
Proof.
  intros Hnd Hin Hv He Hpw Hc.
  unfold login. cbn [LoginBody.email LoginBody.password].
  rewrite (falsy_nonempty e (castEmail_empty e a lib Hv He)),
          (falsy_nonempty pw Hpw).
  cbn [orb findOne].
  rewrite (find_unique email String.eqb st a (castEmail e)
             String.eqb_eq Hnd Hin (eq_sym He)).
  rewrite Hc.
  destruct (save_lastLoginAt lib env st a Hv)
    as (a' & st' & -> & Hi & Hem & Hf & Hu).
  cbn [fst]. unfold issueToken, publicStudent.
  now rewrite Hi, Hem, Hf, Hu.
Qed.

(** C4. In every store the server reaches, an account is found under every
    letter-case variant of the email it was registered with, no other
    account has that email, and a login with such a variant and a password
    that verifies against the account succeeds. *)
Theorem login_email_case_insensitive
    (cfg : Config) (lib : Libraries) (env : Env) (st : Store)
    (a : Student) (e0 e pw : string) :
  (forall p s h, bcrypt_hash lib p s = Js.Ok h -> 6 <= length h) ->
  reachable cfg lib st ->
  In a st ->
  email a = castEmail e0 ->
  Js.toLowerCase e = Js.toLowerCase e0 ->
  pw <> "" ->
  comparePassword lib a pw = Js.Ok true ->
  findOne st (Some e) = Some a /\
  (forall a2, In a2 st -> email a2 = email a -> a2 = a) /\
  fst (login cfg lib env st (LoginBody.mk (Some e) (Some pw)))
  = mkResponse 200
      (JObj [("success", JBool true);
             ("message", JStr "Login successful");
             ("token", JStr (issueToken cfg lib env a));
             ("student", publicStudent a)]).
Proof.
  intros Hlen Hr Hin Ha Hcase Hpw Hc.
  destruct (reachable_uniqueKeys cfg lib st Hr) as [_ Hnd].
  pose proof (reachable_validStore cfg lib st Hlen Hr) as Hv.
  unfold validStore in Hv. rewrite Forall_forall in Hv.
  assert (He : castEmail e = email a)
    by (rewrite Ha; now apply castEmail_case_variant).
  repeat split.
  - cbn [findOne].
    exact (find_unique email String.eqb st a (castEmail e)
             String.eqb_eq Hnd Hin (eq_sym He)).
  - intros a2 Hin2 He2. now apply (NoDup_map_inj email st).
  - apply login_succeeds; auto.
Qed.

Lemma fixture_hash_length (p s h : string) :
  bcrypt_hash Fixture.lib p s = Js.Ok h -> 6 <= length h.
Proof. cbn. intro H. injection H as <-. cbn. lia. Qed.

Lemma login_email_case_insensitive_witness :
  status (fst (login Fixture.cfg Fixture.lib Fixture.env1 Fixture.store1
                 (LoginBody.mk (Some "ANA@EXAMPLE.COM") (Some "secret1"))))
  = 200.
Proof.
  destruct (login_email_case_insensitive Fixture.cfg Fixture.lib
              Fixture.env1 Fixture.store1 Fixture.storedAna
              "Ana@Example.com" "ANA@EXAMPLE.COM" "secret1")
    as (_ & _ & Hl).
  - exact fixture_hash_length.
  - exact (reachable_handle Fixture.cfg Fixture.lib [] Fixture.env0
             (PostRegister Fixture.registerAna)
             (reachable_empty Fixture.cfg Fixture.lib)).
  - left. reflexivity.
  - reflexivity.
  - reflexivity.
  - discriminate.
  - reflexivity.
  - rewrite Hl. reflexivity.
Defined.

Example login_ana_upper_case :
  login Fixture.cfg Fixture.lib Fixture.env1 Fixture.store1
    (LoginBody.mk (Some "ANA@EXAMPLE.COM") (Some "secret1"))
  = (mkResponse 200
       (JObj [("success", JBool true);
              ("message", JStr "Login successful");
              ("token", JStr "token-64b000000000000000000001");
              ("student", publicStudent Fixture.storedAna)]),
     [set_updatedAt 1700000500000%Z
        (set_lastLoginAt (Some 1700000500000%Z) Fixture.storedAna)]).
Proof. reflexivity. Qed.

(** ** Registration, then login *)

Lemma register_created (cfg : Config) (lib : Libraries) (env : Env)
    (st st' : Store) (b : RegisterBody.t) (r : Response) :
  register cfg lib env st b = (r, st') ->
  status r = 201 ->
  exists data s,
    buildStudentData b = Js.Ok data /\
    create lib env st data = Js.Ok (s, st').
Proof.
  unfold register. destruct (findOne st (RegisterBody.email b)).
  - intros H Hs. inversion H; subst. discriminate.
  - destruct (buildStudentData b) as [data|e]; cbn [Js.bind].
    + destruct (create lib env st data) as [[s st'']|e] eqn:Hc.
      * intros H _. inversion H; subst. eauto.
      * intros H Hs. inversion H; subst. unfold registerCatch in Hs.
        destruct (String.eqb (Js.name e) "ValidationError"); discriminate.
    + intros H Hs. inversion H; subst. unfold registerCatch in Hs.
      destruct (String.eqb (Js.name e) "ValidationError"); discriminate.
Qed.

Section RegisterThenLogin.

Variable cfg : Config.
Variable lib : Libraries.

Hypothesis hash_length : forall p s h,
  bcrypt_hash lib p s = Js.Ok h -> 6 <= length h.

(** The contract of bcrypt the scenario rests on: a password verifies
    against its own hash. *)
Hypothesis compare_hash : forall p s h,
  bcrypt_hash lib p s = Js.Ok h -> bcrypt_compare lib p h = Js.Ok true.

(** X19. A registration answered 201 is followed, whatever the letter case
    of the email, by a successful login with the registered password. *)
Lemma register_then_login (env env' : Env) (st st' : Store)
    (b : RegisterBody.t) (r : Response) (e0 e p : string) :
  reachable cfg lib st ->
  register cfg lib env st b = (r, st') ->
  status r = 201 ->
  RegisterBody.email b = Some e0 ->
  RegisterBody.password b = Some p ->
  Js.toLowerCase e = Js.toLowerCase e0 ->
  status (fst (login cfg lib env' st' (LoginBody.mk (Some e) (Some p))))
  = 200.
Proof.
  intros Hr Hreg Hs He0 Hp Hcase.
  assert (Hr' : reachable cfg lib st').
  { change st' with (snd (r, st')). rewrite <- Hreg.
    exact (reachable_handle cfg lib st env (PostRegister b) Hr). }
  destruct (register_created cfg lib env st st' b r Hreg Hs)
    as (data & s & Hb & Hc).
  apply buildStudentData_Ok in Hb. destruct Hb as [Hbe Hbp].
  apply create_Ok in Hc.
  destruct Hc as (Hv & (p' & Hp' & Hh) & Hd & Hst & _).
  cbn in Hp'. rewrite Hbp, Hp in Hp'. injection Hp' as <-.
  assert (Hem : email s = castEmail e0).
  { pose proof (f_equal StudentData.email Hd) as E. cbn in E.
    rewrite Hbe, He0 in E. cbn in E. congruence. }
  assert (Hin : In s st') by (rewrite Hst; apply in_or_app; right; now left).
  destruct (reachable_uniqueKeys cfg lib st' Hr') as [_ Hnd].
  pose proof (reachable_validStore cfg lib st' hash_length Hr') as Hvs.
  unfold validStore in Hvs. rewrite Forall_forall in Hvs.
  rewrite (login_succeeds cfg lib env' st' s e p); trivial.
  - now apply Hvs.
  - rewrite Hem. now apply castEmail_case_variant.
  - intros ->. unfold validate in Hv. cbn in Hv.
    rewrite Hbp, Hp in Hv.
    apply app_eq_nil in Hv. destruct Hv as [_ Hv].
    apply app_eq_nil in Hv. destruct Hv as [Hv _]. discriminate.
  - rewrite comparePassword_value, (compare_hash _ _ _ Hh). reflexivity.
Qed.

End RegisterThenLogin.

(** * Further properties *)

(** ** Letter case and white space *)

Lemma lowerChar_idempotent (c : ascii) :
  Js.lowerChar (Js.lowerChar c) = Js.lowerChar c.
Proof. destruct c as [[] [] [] [] [] [] [] []]; reflexivity. Qed.

Lemma toLowerCase_idempotent (s : string) :
  Js.toLowerCase (Js.toLowerCase s) = Js.toLowerCase s.
Proof.
  induction s as [|c s IH]; cbn; trivial.
  now rewrite lowerChar_idempotent, IH.
Qed.

(** The string is empty or opens with a character that is no white
    space. *)
Definition headNonSpace (s : string) : bool :=
  match s with
  | EmptyString => true
  | String c _ => negb (Js.isSpace c)
  end.

Lemma trimStart_head (s : string) : headNonSpace (Js.trimStart s) = true.
Proof.
  induction s as [|c s IH]; cbn; trivial.
  destruct (Js.isSpace c) eqn:E; trivial. cbn. now rewrite E.
Qed.

Lemma trimStart_fixed (s : string) :
  headNonSpace s = true -> Js.trimStart s = s.
Proof.
  destruct s as [|c s]; cbn; trivial.
  now destruct (Js.isSpace c).
Qed.

Lemma trimEnd_head (s : string) :
  headNonSpace s = true -> headNonSpace (Js.trimEnd s) = true.
Proof.
  destruct s as [|c s]; cbn; trivial. intro H.
  destruct (Js.trimEnd s); cbn; trivial.
  destruct (Js.isSpace c) eqn:E; [discriminate|]. cbn. now rewrite E.
Qed.

Lemma trimEnd_cons (c : ascii) (s : string) :
  Js.trimEnd (String c s)
  = match Js.trimEnd s with
    | EmptyString => if Js.isSpace c then EmptyString else String c EmptyString
    | r => String c r
    end.
Proof. reflexivity. Qed.

Lemma trimEnd_idempotent (s : string) :
  Js.trimEnd (Js.trimEnd s) = Js.trimEnd s.
Proof.
  induction s as [|c s IH]; cbn; trivial.
  destruct (Js.trimEnd s) as [|d r] eqn:E.
  - destruct (Js.isSpace c) eqn:Ec; cbn; trivial. now rewrite Ec.
  - rewrite trimEnd_cons. now rewrite IH.
Qed.

Lemma trim_idempotent (s : string) : Js.trim (Js.trim s) = Js.trim s.
Proof.
  unfold Js.trim.
  rewrite (trimStart_fixed (Js.trimEnd (Js.trimStart s))).
  - apply trimEnd_idempotent.
  - apply trimEnd_head, trimStart_head.
Qed.

Lemma castEmail_idempotent (v : string) :
  castEmail (castEmail v) = castEmail v.
Proof.
  transitivity (Js.trim (castEmail v)).
  - unfold castEmail at 1. f_equal. rewrite castEmail_setter_order.
    apply toLowerCase_idempotent.
  - unfold castEmail. apply trim_idempotent.
Qed.

Lemma castEmail_toLowerCase (v : string) :
  castEmail (Js.toLowerCase v) = castEmail v.
Proof. unfold castEmail. now rewrite toLowerCase_idempotent. Qed.

Lemma findOne_cast (st : Store) (e e' : string) :
  castEmail e = castEmail e' -> findOne st (Some e) = findOne st (Some e').
Proof. cbn. now intros ->. Qed.

(** ** Lookups by email *)

(** X1. [findByEmail] finds what [findOne({ email })] finds: the lower-casing
    it does itself is what the filter's cast does anyway, so the email as
    typed, lower-cased or trimmed leads to the same student. *)
Theorem findByEmail_is_findOne (st : Store) (e : string) :
  findByEmail st e = findOne st (Some e) /\
  findByEmail st (Js.toLowerCase e) = findByEmail st e /\
  findByEmail st (Js.trim e) = findByEmail st e.
Proof.
  unfold findByEmail. repeat split; apply findOne_cast.
  - apply castEmail_toLowerCase.
  - now rewrite !castEmail_toLowerCase.
  - rewrite !castEmail_toLowerCase, !castEmail_setter_order.
    now rewrite trim_idempotent.
Qed.

(** X2. [check-email] and [register] agree on what a taken email is: for a
    non-empty email, [check-email] answers [exists: true] exactly when a
    registration under that email is refused as already registered. *)
Theorem checkEmail_agrees_with_register
    (cfg : Config) (lib : Libraries) (env : Env) (st : Store)
    (b : RegisterBody.t) (e : string) :
  RegisterBody.email b = Some e ->
  e <> "" ->
  (checkEmail st (Some e)
   = mkResponse 200 (JObj [("success", JBool true); ("exists", JBool true)])
   /\ register cfg lib env st b
      = (failure 400 "Email already registered", st)) \/
  (checkEmail st (Some e)
   = mkResponse 200 (JObj [("success", JBool true); ("exists", JBool false)])
   /\ fst (register cfg lib env st b)
      <> failure 400 "Email already registered").
Proof.
  intros Hb He. unfold checkEmail, register.
  rewrite (falsy_nonempty e He), Hb.
  rewrite (findOne_cast st (Js.toLowerCase e) e (castEmail_toLowerCase e)).
  destruct (findOne st (Some e)); [left; now split|right; split; trivial].
  destruct (Js.bind (buildStudentData b) (create lib env st))
    as [[s st']|err]; cbn [fst]; [discriminate|].
  unfold registerCatch.
  destruct (String.eqb (Js.name err) "ValidationError"); discriminate.
Qed.

Lemma checkEmail_agrees_with_register_witness :
  checkEmail Fixture.store1 (Some "ANA@example.com")
  = mkResponse 200 (JObj [("success", JBool true); ("exists", JBool true)]).
Proof.
  destruct (checkEmail_agrees_with_register Fixture.cfg Fixture.lib
              Fixture.env1 Fixture.store1
              (RegisterBody.mk (Some "ANA@example.com") (Some "secret2")
                 (Some "Ana") None None None None None None None None None
                 None None None None None None None None)
              "ANA@example.com" eq_refl)
    as [[H _]|[_ H]].
  - discriminate.
  - exact H.
  - exfalso. apply H. reflexivity.
Defined.

(** ** The middlewares *)

(** X3. The routes sign tokens with the secret the middleware verifies them
    with exactly when [JWT_SECRET] is set to a non-empty string; with the
    variable unset or empty the two fall back to different literals. *)
Theorem jwt_secrets_agree_iff_configured (cfg : Config) :
  (JWT_SECRET_routes cfg = JWT_SECRET_middleware cfg <->
   Js.falsy (JWT_SECRET cfg) = false) /\
  (Js.falsy (JWT_SECRET cfg) = false ->
   JWT_SECRET cfg = Some (JWT_SECRET_routes cfg)).
Proof.
  unfold JWT_SECRET_routes, JWT_SECRET_middleware, Js.orElse, Js.falsy.
  destruct (JWT_SECRET cfg) as [s|].
  - destruct (String.eqb s "") eqn:E; split; try split; trivial;
      discriminate.
  - split; [split|]; discriminate.
Qed.

Ltac by_error_name H :=
  repeat match type of H with
         | context [String.eqb ?a ?b] => destruct (String.eqb a b)
         end.

(** X4. The middleware lets a request through only with a payload that
    [jwt.verify] returned for the token taken from its header, under the
    middleware's secret and at the time of the request: whatever the
    header, no other identity reaches a handler. *)
Theorem authenticateToken_next_only_verified
    (cfg : Config) (lib : Libraries) (hdr : option string) (clock : Date)
    (d : Decoded) :
  authenticateToken cfg lib hdr clock = Next d ->
  exists header,
    hdr = Some header /\
    Js.replace "Bearer " "" header <> "" /\
    jwt_verify lib (Js.replace "Bearer " "" header)
      (JWT_SECRET_middleware cfg) clock = Js.Ok d /\
    toISOString (iat d) = Js.Ok tt /\
    toISOString (exp d) = Js.Ok tt.
Proof.
  unfold authenticateToken, extractToken. destruct hdr as [h|];
    [|discriminate]. cbn [option_map Js.falsy].
  destruct (String.eqb (Js.replace "Bearer " "" h) "") eqn:E;
    [discriminate|].
  intro H. exists h. split; trivial. split; [now apply String.eqb_neq|].
  unfold verifyAndAttach in H.
  destruct (jwt_verify lib _ _ clock) as [d'|e] eqn:Hv; cbn [Js.bind] in H.
  - destruct (toISOString (iat d')) as [[]|e1] eqn:Hi; cbn [Js.bind] in H.
    + destruct (toISOString (exp d')) as [[]|e2] eqn:He; cbn [Js.bind] in H.
      * injection H as <-. auto.
      * now by_error_name H.
    + now by_error_name H.
  - now by_error_name H.
Qed.

Lemma authenticateToken_next_only_verified_witness :
  jwt_verify Fixture.lib "token-64b000000000000000000001"
    (JWT_SECRET_middleware Fixture.cfg) 1700000500000%Z = Js.Ok Fixture.ana.
Proof.
  destruct (authenticateToken_next_only_verified Fixture.cfg Fixture.lib
              (Some "Bearer token-64b000000000000000000001")
              1700000500000%Z Fixture.ana eq_refl)
    as (h & Hh & _ & Hv & _).
  injection Hh as <-. exact Hv.
Defined.

(** X5. [checkUserType] lets through exactly the requests whose user type
    is one of the allowed ones, so none when no type is allowed or the user
    has no type; [isStudent] lets through what [checkUserType('student')]
    does; whatever either refuses is answered 403. *)
Theorem checkUserType_allows_listed (allowedTypes : list string)
    (userType : option string) :
  (checkUserType allowedTypes userType = None <->
   exists t, userType = Some t /\ In t allowedTypes) /\
  (isStudent userType = None <->
   checkUserType ["student"] userType = None) /\
  (forall r, checkUserType allowedTypes userType = Some r \/
             isStudent userType = Some r -> status r = 403).
Proof.
  unfold checkUserType, isStudent. repeat split.
  - destruct userType as [t|]; [|discriminate].
    destruct (existsb (String.eqb t) allowedTypes) eqn:E; [|discriminate].
    intros _. exists t. split; trivial.
    apply existsb_exists in E. destruct E as (x & Hx & Ex).
    apply String.eqb_eq in Ex. now subst.
  - intros (t & -> & Hin).
    assert (E : existsb (String.eqb t) allowedTypes = true).
    { apply existsb_exists. exists t. split; trivial.
      apply String.eqb_refl. }
    now rewrite E.
  - destruct userType as [t|]; [|discriminate]. cbn.
    now destruct (String.eqb t "student").
  - destruct userType as [t|]; [|discriminate]. cbn.
    now destruct (String.eqb t "student").
  - intros r [H|H].
    + destruct (negb _); [|discriminate]. now injection H as <-.
    + destruct userType as [t|]; [destruct (negb _)|];
        try discriminate; now injection H as <-.
Qed.

(** ** Saves of a loaded document *)

Lemma updateFirst_find_map {B} (g : Student -> B) (p : Student -> bool)
    (f : Student -> Student) (st : Store) (x : Student) :
  find p st = Some x -> g (f x) = g x ->
  map g (updateFirst p f st) = map g st.
Proof.
  induction st as [|s st IH]; simpl; [discriminate|].
  destruct (p s) eqn:Hp; intros H Hg.
  - injection H as ->. simpl. now rewrite Hg.
  - simpl. f_equal. now apply IH.
Qed.

Lemma find_updateFirst_const (p : Student -> bool) (st : Store)
    (x s' : Student) :
  find p st = Some x -> p s' = true ->
  find p (updateFirst p (fun _ => s') st) = Some s'.
Proof.
  induction st as [|s st IH]; simpl; [discriminate|].
  destruct (p s) eqn:Hp; intros H Hs'; simpl.
  - now rewrite Hs'.
  - rewrite Hp. now apply IH.
Qed.

Lemma In_updateFirst_const (p : Student -> bool) (st : Store)
    (x s' : Student) :
  In x st -> p x = true -> In s' (updateFirst p (fun _ => s') st).
Proof.
  induction st as [|s st IH]; simpl; [tauto|].
  destruct (p s) eqn:Hp; intros [->|Hin] Hx; simpl; auto.
  congruence.
Qed.

Lemma set_password_same (s : Student) : set_password (password s) s = s.
Proof. now destruct s. Qed.

Lemma eqb_date_eq (a b : option Date) : eqb_date a b = true -> a = b.
Proof.
  destruct a, b; cbn; try discriminate; trivial.
  intro H. apply Z.eqb_eq in H. now subst.
Qed.

(** The document of the login handler, saved. *)
Lemma save_login_document (lib : Libraries) (env : Env) (st : Store)
    (student : Student) :
  save lib env st (assign_lastLoginAt (now env) (load student))
  = match validate lib (dataOf student) with
    | [] =>
        if eqb_date (Some (now env)) (lastLoginAt student)
        then Js.Ok (student, st)
        else
          let s' := set_updatedAt (now env)
                      (set_lastLoginAt (Some (now env)) student) in
          Js.Ok (s', updateFirst (fun x => String.eqb (_id x) (_id student))
                                 (fun _ => s') st)
    | errs => Js.Throw (validationError errs)
    end.
Proof.
  unfold save, assign_lastLoginAt, load, preSaveHook.
  cbn [doc modifiedPaths].
  destruct (eqb_date (Some (now env)) (lastLoginAt student));
    cbn [doc modifiedPaths].
  - destruct (validate lib (dataOf student)); trivial. cbn.
    now rewrite set_password_same.
  - change (dataOf (set_lastLoginAt (Some (now env)) student))
      with (dataOf student).
    destruct (validate lib (dataOf student)); trivial.
Qed.

(** The document of the change-password handler: what its two assignments
    leave in it. *)
Lemma password_document (student : Student) (np : string) (v : Date) :
  let d := assign_passwordChangedAt v (assign_password np (load student)) in
  _id (doc d) = _id student /\
  password (doc d) = np /\
  passwordChangedAt (doc d) = Some v /\
  isModified "password" d = negb (String.eqb np (password student)) /\
  (forall pw, withoutPasswordStamp (set_password pw (doc d))
              = withoutPasswordStamp student) /\
  (modifiedPaths d = [] -> doc d = student).
Proof.
  unfold assign_passwordChangedAt, assign_password, load.
  cbn [doc modifiedPaths].
  destruct (String.eqb np (password student)) eqn:Enp;
    cbn [doc modifiedPaths];
    [apply String.eqb_eq in Enp|
     change (passwordChangedAt (set_password np student))
       with (passwordChangedAt student)];
    destruct (eqb_date (Some v) (passwordChangedAt student)) eqn:Ed;
    cbn [doc modifiedPaths]; repeat split; trivial;
    try discriminate; try (symmetry; now apply eqb_date_eq); now symmetry.
Qed.

(** The document of the change-password handler, in one piece. *)
Lemma password_document_doc (student : Student) (np : string) (v : Date) :
  doc (assign_passwordChangedAt v (assign_password np (load student)))
  = set_passwordChangedAt (Some v) (set_password np student).
Proof.
  unfold assign_passwordChangedAt, assign_password, load.
  cbn [doc modifiedPaths].
  destruct (String.eqb np (password student)) eqn:Enp;
    cbn [doc modifiedPaths];
    [apply String.eqb_eq in Enp|
     change (passwordChangedAt (set_password np student))
       with (passwordChangedAt student)];
    destruct (eqb_date (Some v) (passwordChangedAt student)) eqn:Ed;
    cbn [doc modifiedPaths]; trivial;
    try apply eqb_date_eq in Ed; destruct student; cbn in *; subst;
    reflexivity.
Qed.

Lemma Forall2_same (R : Student -> Student -> Prop) (st : Store) :
  (forall x, R x x) -> Forall2 R st st.
Proof. intro H. induction st; constructor; auto. Qed.

(** [updateFirst] changes the student [find] returns and no other. *)
Lemma updateFirst_first (R : Student -> Student -> Prop)
    (p : Student -> bool) (f : Student -> Student) (st : Store) :
  (forall x, R x x) ->
  (forall x, find p st = Some x -> R x (f x)) ->
  Forall2 R st (updateFirst p f st).
Proof.
  intro Hrefl. induction st as [|s st IH]; intro H; simpl; [constructor|].
  simpl in H. destruct (p s) eqn:Hp.
  - constructor; [now apply H|now apply Forall2_same].
  - constructor; auto.
Qed.

(** The document of the change-password handler, saved: nothing is written
    when the student has the new password and the time of the request
    already; otherwise the three paths are. *)
Lemma save_password_document (lib : Libraries) (env : Env) (st st' : Store)
    (student s' : Student) (np : string) :
  save lib env st
    (assign_passwordChangedAt (now env) (assign_password np (load student)))
  = Js.Ok (s', st') ->
  exists pw,
    (bcrypt_hash lib np (salt env) = Js.Ok pw \/
     (pw = np /\ password student = np)) /\
    ((st' = st /\ s' = student /\ password student = np /\
      passwordChangedAt student = Some (now env)) \/
     (s' = set_updatedAt (now env)
             (set_passwordChangedAt (Some (now env))
                (set_password pw student)) /\
      st' = updateFirst (fun x => String.eqb (_id x) (_id student))
                        (fun _ => s') st)).
Proof.
  intro Hs. apply save_Ok in Hs.
  destruct (password_document student np (now env))
    as (Hid & Hpw & Hch & Hmod & _ & Hsame).
  pose proof (password_document_doc student np (now env)) as Hdoc.
  destruct Hs as (_ & pw & Hhash & Hw). rewrite Hmod, Hpw in Hhash.
  exists pw. split.
  - destruct (String.eqb np (password student)) eqn:E; cbn [negb] in Hhash.
    + right. apply String.eqb_eq in E. now split.
    + now left.
  - destruct Hw as [(Hm & Hs' & ->)|(Hs' & ->)].
    + left. pose proof (Hsame Hm) as Hd.
      assert (Hnp : password student = np) by now rewrite <- Hd.
      assert (E : isModified "password"
                    (assign_passwordChangedAt (now env)
                       (assign_password np (load student))) = false)
        by (unfold isModified; now rewrite Hm).
      rewrite Hmod in E. rewrite E in Hhash. cbn [negb] in Hhash.
      repeat split; trivial.
      * rewrite Hs', Hd, Hhash, <- Hnp. apply set_password_same.
      * now rewrite <- Hd.
    + right. rewrite Hid. split; trivial. rewrite Hs', Hdoc. reflexivity.
Qed.

(** ** What a login writes *)

(** X6. A login, whatever its answer, changes no stored student but the one
    its email finds, and of that one the [lastLoginAt] and [updatedAt]
    only: the pre-save hook leaves the password as it is, so it is not
    hashed again.  After a login answered 200 that student's [lastLoginAt]
    is the time of the request. *)
Theorem login_writes_login_stamps_only
    (cfg : Config) (lib : Libraries) (env : Env) (st : Store)
    (b : LoginBody.t) :
  NoDup (map _id st) ->
  let r := login cfg lib env st b in
  Forall2 (loginFrame (findOne st (LoginBody.email b)) env) st (snd r) /\
  map withoutLoginStamp (snd r) = map withoutLoginStamp st /\
  (status (fst r) = 200 ->
   exists e a a',
     LoginBody.email b = Some e /\ findOne st (Some e) = Some a /\
     In a' (snd r) /\ withoutLoginStamp a' = withoutLoginStamp a /\
     lastLoginAt a' = Some (now env)).
Proof.
  intros Hnd r. unfold r, login.
  assert (Hsame : forall o, Forall2 (loginFrame o env) st st)
    by (intro o; apply Forall2_same; intro x; now left).
  destruct (LoginBody.email b) as [e|];
    [|split; [apply Hsame|split; [reflexivity|discriminate]]].
  destruct (LoginBody.password b) as [pw|];
    [|split; [apply Hsame|split; [reflexivity|discriminate]]].
  destruct (Js.falsy (Some e) || Js.falsy (Some pw));
    [split; [apply Hsame|split; [reflexivity|discriminate]]|].
  destruct (findOne st (Some e)) as [student|] eqn:Hf;
    [|split; [apply Hsame|split; [reflexivity|discriminate]]].
  destruct (findOne_In st (Some e) student Hf) as [Hin _].
  destruct (comparePassword lib student pw) as [[]|];
    try (split; [apply Hsame|split; [reflexivity|discriminate]]).
  rewrite save_login_document.
  destruct (validate lib (dataOf student));
    [|split; [apply Hsame|split; [reflexivity|discriminate]]].
  destruct (eqb_date (Some (now env)) (lastLoginAt student)) eqn:Ed;
    cbn [fst snd].
  - split; [apply Hsame|]. split; trivial. intros _.
    exists e, student, student.
    repeat split; trivial. symmetry. now apply eqb_date_eq.
  - assert (Hone : forall x,
               In x st -> String.eqb (_id x) (_id student) = true ->
               x = student).
    { intros x Hx Hp. apply String.eqb_eq in Hp.
      exact (NoDup_map_inj _id st x student Hnd Hx Hin Hp). }
    split; [|split].
    + apply updateFirst_first.
      * intro x. now left.
      * intros x Hx. apply find_some in Hx. destruct Hx as [Hx Hp].
        rewrite (Hone x Hx Hp). right. now split.
    + apply updateFirst_map. intros x Hx Hp.
      now rewrite (Hone x Hx Hp).
    + intros _. exists e, student. eexists.
      split; [reflexivity|]. split; [exact Hf|]. split; [|split].
      * apply (In_updateFirst_const _ st student); trivial.
        apply String.eqb_refl.
      * reflexivity.
      * reflexivity.
Qed.

Lemma login_writes_login_stamps_only_witness :
  let st' := snd (login Fixture.cfg Fixture.lib Fixture.env1 Fixture.store2
                    (LoginBody.mk (Some "ANA@example.com")
                                  (Some "secret1"))) in
  map password st' = map password Fixture.store2 /\
  map lastLoginAt st' = [Some 1700000500000%Z; None] /\
  map lastLoginAt Fixture.store2 = [None; None].
Proof.
  intro st'.
  destruct (login_writes_login_stamps_only Fixture.cfg Fixture.lib
              Fixture.env1 Fixture.store2
              (LoginBody.mk (Some "ANA@example.com") (Some "secret1")))
    as (_ & H & _).
  - vm_compute. repeat constructor; simpl; intuition discriminate.
  - split; [|split; vm_compute; reflexivity].
    apply (f_equal (map password)) in H. rewrite !map_map in H. exact H.
Defined.

(** ** What a change of password writes *)

(** The answers of the change-password handler and the writes that go with
    them. *)
Lemma changePassword_outcome (lib : Libraries) (env : Env) (st st' : Store)
    (user : Decoded) (b : ChangePasswordBody.t) (r : Response) :
  changePassword lib env st user b = (r, st') ->
  (st' = st /\ (status r = 400 \/ status r = 404 \/ status r = 500)) \/
  exists np id student s',
    ChangePasswordBody.newPassword b = Some np /\
    6 <= length np /\
    castToObjectId lib (userId user) = Js.Ok id /\
    findById st id = Some student /\
    save lib env st
      (assign_passwordChangedAt (now env)
         (assign_password np (load student))) = Js.Ok (s', st') /\
    (status r = 500 \/
     status r = 200 /\
     exists a', findById st' id = Some a' /\
                bcrypt_compare lib np (password a') = Js.Ok true).
Proof.
  unfold changePassword.
  destruct (ChangePasswordBody.newPassword b) as [np|];
    [|intro H; injection H as <- <-; left; cbn; auto].
  destruct (ChangePasswordBody.confirmPassword b) as [cp|];
    [|intro H; injection H as <- <-; left; cbn; auto].
  destruct (Js.falsy (Some np) || Js.falsy (Some cp));
    [intro H; injection H as <- <-; left; cbn; auto|].
  destruct (negb (String.eqb np cp));
    [intro H; injection H as <- <-; left; cbn; auto|].
  destruct (length np <? 6) eqn:El;
    [intro H; injection H as <- <-; left; cbn; auto|].
  apply Nat.ltb_ge in El.
  destruct (castToObjectId lib (userId user)) as [id|] eqn:Hid;
    [|intro H; injection H as <- <-; left; cbn; auto].
  destruct (findById st id) as [student|] eqn:Hf;
    [|intro H; injection H as <- <-; left; cbn; auto].
  destruct (save lib env st _) as [[s' st1]|err] eqn:Hs;
    [|intro H; injection H as <- <-; left; cbn; auto].
  intro H. right. exists np, id, student, s'.
  destruct (findById st1 id) as [a'|] eqn:Hf'.
  - destruct (bcrypt_compare lib np (password a')) as [[]|] eqn:Hc;
      injection H as <- <-; repeat split; trivial; cbn; auto.
    right. split; trivial. now exists a'.
  - injection H as <- <-. repeat split; trivial. cbn; auto.
Qed.

(** X7. A change of password, whatever its answer, changes no stored
    student but the one the [userId] of the token finds, and of that one the
    [password], [passwordChangedAt] and [updatedAt] only; the password
    written is the hash of the new one under the salt of the request, or the
    new one as it is when the student had it as password already.  An
    answer 400 or 404 goes with no write at all. *)
Theorem changePassword_writes_password_stamps_only
    (lib : Libraries) (env : Env) (st : Store) (user : Decoded)
    (b : ChangePasswordBody.t) :
  let r := changePassword lib env st user b in
  (snd r = st \/
   exists np id,
     ChangePasswordBody.newPassword b = Some np /\
     castToObjectId lib (userId user) = Js.Ok id /\
     Forall2 (passwordFrame lib st id np env) st (snd r)) /\
  map withoutPasswordStamp (snd r) = map withoutPasswordStamp st /\
  (status (fst r) = 400 \/ status (fst r) = 404 -> snd r = st).
Proof.
  intro r. destruct r as [resp st'] eqn:Er. unfold r in Er. cbn [fst snd].
  destruct (changePassword_outcome lib env st st' user b resp Er)
    as [[-> _]|(np & id & student & s' & Hnp & _ & Hid & Hf & Hs & Hst)].
  - repeat split; auto.
  - destruct (findById_In st _ _ Hf) as [_ Hu].
    destruct (save_password_document lib env st st' student s' np Hs)
      as (pw & Hpw & [(-> & _)|(Hs' & ->)]).
    + repeat split; auto.
    + split; [|split].
      * right. exists np, id. repeat split; trivial.
        rewrite Hu. apply updateFirst_first.
        -- intro x. now left.
        -- intros x Hx. right. change (findById st id = Some x) in Hx.
           rewrite Hf in Hx. injection Hx as <-.
           split; trivial. now exists pw.
      * rewrite Hu.
        apply (updateFirst_find_map withoutPasswordStamp _ _ st student Hf).
        now rewrite Hs'.
      * intros [H|H]; destruct Hst as [E|[E _]]; rewrite E in H;
          discriminate.
Qed.

Lemma changePassword_writes_password_stamps_only_witness :
  let b := ChangePasswordBody.mk (Some "secret2") (Some "secret2") in
  let st' := snd (changePassword Fixture.lib Fixture.env1 Fixture.store2
                    Fixture.ana b) in
  map password Fixture.store2
  = ["$2a$10$saltsecret1"; "$2a$10$tlashunter22"] /\
  map password st' = ["$2a$10$tlassecret2"; "$2a$10$tlashunter22"] /\
  map passwordChangedAt st' = [Some 1700000500000%Z; None].
Proof.
  intros b st'.
  destruct (changePassword_writes_password_stamps_only Fixture.lib
              Fixture.env1 Fixture.store2 Fixture.ana b)
    as (_ & _ & _).
  repeat split; vm_compute; reflexivity.
Defined.

(** What holds of the store after a change of password answered 200. *)
Lemma changePassword_200 (lib : Libraries) (env : Env) (st st' : Store)
    (user : Decoded) (b : ChangePasswordBody.t) (r : Response) :
  changePassword lib env st user b = (r, st') ->
  status r = 200 ->
  exists np id a a',
    ChangePasswordBody.newPassword b = Some np /\
    6 <= length np /\
    castToObjectId lib (userId user) = Js.Ok id /\
    findById st id = Some a /\
    findById st' id = Some a' /\
    bcrypt_compare lib np (password a') = Js.Ok true /\
    passwordChangedAt a' = Some (now env) /\
    withoutPasswordStamp a' = withoutPasswordStamp a /\
    (bcrypt_hash lib np (salt env) = Js.Ok (password a') \/
     (password a = np /\ password a' = np)).
Proof.
  intros Hc H200.
  destruct (changePassword_outcome lib env st st' user b r Hc)
    as [[_ [E|[E|E]]]
       |(np & id & student & s' & Hnp & Hlen & Hid & Hf & Hs & Hst)];
    try (rewrite E in H200; discriminate).
  destruct Hst as [E|[_ (a' & Hf' & Hcmp)]];
    [rewrite E in H200; discriminate|].
  exists np, id, student, a'.
  destruct (findById_In st _ _ Hf) as [_ Hu].
  destruct (save_password_document lib env st st' student s' np Hs)
    as (pw & Hpw & [(-> & _ & Hp & Hch)|(Hs' & ->)]).
  - rewrite Hf in Hf'. injection Hf' as <-.
    repeat split; trivial. right. now split.
  - assert (Hfind : findById
                       (updateFirst
                          (fun x => String.eqb (_id x) (_id student))
                          (fun _ => s') st) id = Some s').
    { unfold findById. rewrite Hu.
      apply (find_updateFirst_const _ st student s' Hf).
      rewrite Hs'. cbn. rewrite Hu. apply String.eqb_refl. }
    rewrite Hfind in Hf'. injection Hf' as <-.
    assert (Hpass : password s' = pw) by now rewrite Hs'.
    assert (Hchanged : passwordChangedAt s' = Some (now env))
      by now rewrite Hs'.
    assert (Hframe : withoutPasswordStamp s' = withoutPasswordStamp student)
      by now rewrite Hs'.
    rewrite Hpass in Hcmp |- *. repeat split; trivial.
    destruct Hpw as [Hh|[-> Hp]]; [now left|right; now split].
Qed.

(** X8. After a change of password answered 200 the student the [userId] of
    the token finds has the password, [passwordChangedAt] and [updatedAt]
    written and nothing else: the stored password verifies the new password
    and is its hash under the salt of the request, unless the new password
    was the stored password already, which the save then leaves alone;
    [passwordChangedAt] is the time of the request. *)
Theorem changePassword_success_stores_hash
    (lib : Libraries) (env : Env) (st st' : Store) (user : Decoded)
    (b : ChangePasswordBody.t) (r : Response) :
  changePassword lib env st user b = (r, st') ->
  status r = 200 ->
  exists np id a a',
    ChangePasswordBody.newPassword b = Some np /\
    castToObjectId lib (userId user) = Js.Ok id /\
    findById st id = Some a /\
    findById st' id = Some a' /\
    withoutPasswordStamp a' = withoutPasswordStamp a /\
    comparePassword lib a' np = Js.Ok true /\
    passwordChangedAt a' = Some (now env) /\
    (bcrypt_hash lib np (salt env) = Js.Ok (password a') \/
     (password a = np /\ password a' = np)).
Proof.
  intros Hc H200.
  destruct (changePassword_200 lib env st st' user b r Hc H200)
    as (np & id & a & a' & Hnp & _ & Hid & Hf & Hf' & Hcmp & Hch & Hfr & Hh).
  exists np, id, a, a'. repeat split; trivial.
  now rewrite comparePassword_value, Hcmp.
Qed.

Lemma changePassword_success_stores_hash_witness :
  let b := ChangePasswordBody.mk (Some "secret2") (Some "secret2") in
  map password
    (snd (changePassword Fixture.lib Fixture.env1 Fixture.store1
            Fixture.ana b))
  = ["$2a$10$tlassecret2"].
Proof.
  intro b.
  destruct (changePassword_success_stores_hash Fixture.lib Fixture.env1
              Fixture.store1
              (snd (changePassword Fixture.lib Fixture.env1 Fixture.store1
                      Fixture.ana b))
              Fixture.ana b
              (fst (changePassword Fixture.lib Fixture.env1 Fixture.store1
                      Fixture.ana b)))
    as (np & id & a & a' & Hnp & _).
  - vm_compute. reflexivity.
  - vm_compute. reflexivity.
  - vm_compute. reflexivity.
Defined.

(** X9. After a change of password answered 200, a login with the new
    password succeeds under every spelling of the student's email, in every
    store the lifecycle routes reach. *)
Theorem changePassword_then_login
    (cfg : Config) (lib : Libraries) (env env' : Env) (st st' : Store)
    (user : Decoded) (b : ChangePasswordBody.t) (r : Response) :
  (forall p s h, bcrypt_hash lib p s = Js.Ok h -> 6 <= length h) ->
  reachable cfg lib st ->
  changePassword lib env st user b = (r, st') ->
  status r = 200 ->
  exists np id a',
    ChangePasswordBody.newPassword b = Some np /\
    castToObjectId lib (userId user) = Js.Ok id /\
    findById st' id = Some a' /\
    forall e,
      castEmail e = email a' ->
      fst (login cfg lib env' st' (LoginBody.mk (Some e) (Some np)))
      = mkResponse 200
          (JObj [("success", JBool true);
                 ("message", JStr "Login successful");
                 ("token", JStr (issueToken cfg lib env' a'));
                 ("student", publicStudent a')]).
Proof.
  intros Hlen Hr Hc H200.
  destruct (changePassword_200 lib env st st' user b r Hc H200)
    as (np & id & a & a' & Hnp & Hl & Hid & _ & Hf & Hcmp & _).
  exists np, id, a'. repeat split; trivial. intros e He.
  pose proof (changePassword_effect lib env st user b None) as Heff.
  rewrite Hc in Heff. cbn [snd] in Heff.
  destruct (effect_uniqueKeys lib env _ st st' Heff
              (reachable_uniqueKeys cfg lib st Hr)) as [_ Hnd].
  pose proof (effect_validStore lib Hlen env _ st st' Heff
                (reachable_validStore cfg lib st Hlen Hr)) as Hv.
  unfold validStore in Hv. rewrite Forall_forall in Hv.
  destruct (findById_In st' _ _ Hf) as [Hin _].
  apply login_succeeds; auto.
  - intros ->. simpl in Hl. lia.
  - now rewrite comparePassword_value, Hcmp.
Qed.

Lemma changePassword_then_login_witness :
  let b := ChangePasswordBody.mk (Some "secret2") (Some "secret2") in
  let st' := snd (changePassword Fixture.lib Fixture.env1 Fixture.store1
                    Fixture.ana b) in
  status (fst (login Fixture.cfg Fixture.lib Fixture.env1 st'
                 (LoginBody.mk (Some "Ana@Example.COM") (Some "secret2"))))
  = 200.
Proof.
  intros b st'.
  destruct (changePassword_then_login Fixture.cfg Fixture.lib Fixture.env1
              Fixture.env1 Fixture.store1 st' Fixture.ana b
              (fst (changePassword Fixture.lib Fixture.env1 Fixture.store1
                      Fixture.ana b)))
    as (np & id & a' & Hnp & Hid & Hf & Hl).
  - exact fixture_hash_length.
  - exact (reachable_handle Fixture.cfg Fixture.lib [] Fixture.env0
             (PostRegister Fixture.registerAna)
             (reachable_empty Fixture.cfg Fixture.lib)).
  - vm_compute. reflexivity.
  - vm_compute. reflexivity.
  - vm_compute in Hnp, Hid. injection Hnp as <-. injection Hid as <-.
    vm_compute in Hf. injection Hf as <-.
    rewrite (Hl "Ana@Example.COM" eq_refl). reflexivity.
Defined.

(** X10. After a change of password answered 200 at a given time,
    [changedPasswordAfter] holds of the student exactly for the token
    timestamps below that time in whole seconds: a token issued in an
    earlier second is told apart, one issued in the second of the change or
    later is not. *)
Theorem changedPasswordAfter_after_change
    (lib : Libraries) (env : Env) (st st' : Store) (user : Decoded)
    (b : ChangePasswordBody.t) (r : Response) :
  changePassword lib env st user b = (r, st') ->
  status r = 200 ->
  exists id a',
    castToObjectId lib (userId user) = Js.Ok id /\
    findById st' id = Some a' /\
    forall JWTTimestamp,
      changedPasswordAfter a' JWTTimestamp = true <->
      (JWTTimestamp < Z.quot (now env) 1000)%Z.
Proof.
  intros Hc H200.
  destruct (changePassword_200 lib env st st' user b r Hc H200)
    as (np & id & a & a' & _ & _ & Hid & _ & Hf & _ & Hch & _).
  exists id, a'. repeat split; trivial;
    unfold changedPasswordAfter; rewrite Hch; apply Z.ltb_lt.
Qed.

Lemma changedPasswordAfter_after_change_witness :
  let b := ChangePasswordBody.mk (Some "secret2") (Some "secret2") in
  let st' := snd (changePassword Fixture.lib Fixture.env1 Fixture.store1
                    Fixture.ana b) in
  map (fun a => (changedPasswordAfter a 1700000000%Z,
                 changedPasswordAfter a 1700000500%Z)) st'
  = [(true, false)].
Proof.
  intros b st'.
  destruct (changedPasswordAfter_after_change Fixture.lib Fixture.env1
              Fixture.store1 st' Fixture.ana b
              (fst (changePassword Fixture.lib Fixture.env1 Fixture.store1
                      Fixture.ana b)))
    as (id & a' & _ & Hf & _).
  - vm_compute. reflexivity.
  - vm_compute. reflexivity.
  - vm_compute. reflexivity.
Defined.

(** ** What a registration writes *)

(** The paths of a created student that the request does not set. *)
Lemma create_fields (lib : Libraries) (env : Env) (st st' : Store)
    (data : StudentData.t) (s : Student) :
  create lib env st data = Js.Ok (s, st') ->
  _id s = freshId env /\ userType s = "student" /\
  profileImage s = None /\ passwordChangedAt s = None /\
  lastLoginAt s = None /\ lastLogoutAt s = None /\
  createdAt s = now env /\ updatedAt s = now env.
Proof.
  intro H. unfold create in H.
  set (d := applySetters data) in H.
  destruct (validate lib d) as [|err errs].
  2:{ destruct (StudentData.email d), (StudentData.password d),
               (StudentData.fullName d); discriminate. }
  destruct (StudentData.email d) as [e|]; [|discriminate].
  destruct (StudentData.password d) as [p|]; [|discriminate].
  destruct (StudentData.fullName d) as [n|]; [|discriminate].
  destruct (preSaveHook lib env true p) as [pw|]; [|discriminate].
  cbn [Js.bind] in H.
  destruct (insertOne lib _ st) as [st1|]; [|discriminate].
  cbn in H. injection H as <- <-. repeat split.
Qed.

(** X11. A registration answered 201 appends exactly one student to the
    store: under the email of the request as the setters cast it, with the
    hash of the submitted password under the salt of the request, the fresh
    ObjectId, no [passwordChangedAt] (so [changedPasswordAfter] holds of no
    token) and no login or logout time; the students stored before stay as
    they were, and the answer carries the token and the public paths of the
    new student. *)
Theorem register_201_appends_student
    (cfg : Config) (lib : Libraries) (env : Env) (st st' : Store)
    (b : RegisterBody.t) (r : Response) :
  register cfg lib env st b = (r, st') ->
  status r = 201 ->
  exists s e0 p,
    st' = (st ++ [s])%list /\
    RegisterBody.email b = Some e0 /\
    RegisterBody.password b = Some p /\
    email s = castEmail e0 /\
    bcrypt_hash lib p (salt env) = Js.Ok (password s) /\
    _id s = freshId env /\
    passwordChangedAt s = None /\ lastLoginAt s = None /\
    lastLogoutAt s = None /\
    (forall t, changedPasswordAfter s t = false) /\
    r = mkResponse 201
          (JObj [("success", JBool true);
                 ("message", JStr "Student registered successfully");
                 ("token", JStr (issueToken cfg lib env s));
                 ("student", publicStudent s)]).
Proof.
  intros Hreg H201.
  destruct (register_created cfg lib env st st' b r Hreg H201)
    as (data & s & Hb & Hc).
  pose proof (create_fields lib env st st' data s Hc)
    as (Hid & _ & _ & Hch & Hli & Hlo & _).
  pose proof Hc as Hc'. apply create_Ok in Hc'.
  destruct Hc' as (_ & (p & Hp & Hh) & Hd & Hst & _).
  destruct (buildStudentData_Ok b data Hb) as [Hbe Hbp].
  cbn in Hp. rewrite Hbp in Hp.
  pose proof (f_equal StudentData.email Hd) as E. cbn in E.
  rewrite Hbe in E.
  destruct (RegisterBody.email b) as [e0|] eqn:He0; [|discriminate].
  cbn in E. injection E as E.
  exists s, e0, p. repeat split; trivial.
  - intro t. unfold changedPasswordAfter. now rewrite Hch.
  - unfold register in Hreg. rewrite He0 in Hreg.
    destruct (findOne st (Some e0));
      [injection Hreg as <- _; discriminate|].
    rewrite Hb in Hreg. cbn [Js.bind] in Hreg. rewrite Hc in Hreg.
    now inversion Hreg.
Qed.

Lemma register_201_appends_student_witness :
  snd (register Fixture.cfg Fixture.lib Fixture.env0 [] Fixture.registerAna)
  = [Fixture.storedAna].
Proof.
  destruct (register_201_appends_student Fixture.cfg Fixture.lib
              Fixture.env0 []
              (snd (register Fixture.cfg Fixture.lib Fixture.env0 []
                      Fixture.registerAna))
              Fixture.registerAna
              (fst (register Fixture.cfg Fixture.lib Fixture.env0 []
                      Fixture.registerAna)) eq_refl eq_refl)
    as (s & e0 & p & Hst & _).
  reflexivity.
Defined.

(** X12. A registration with [skills] given, an email no student has, and a
    password of one to five characters fails the schema's validation: it is
    answered 400 [Validation error] with the messages of the failed paths,
    that of the password among them, and nothing is stored. *)
Theorem register_short_password_400
    (cfg : Config) (lib : Libraries) (env : Env) (st : Store)
    (b : RegisterBody.t) (p : string) :
  findOne st (RegisterBody.email b) = None ->
  RegisterBody.skills b <> None ->
  RegisterBody.password b = Some p ->
  p <> "" ->
  length p < 6 ->
  exists messages,
    register cfg lib env st b
    = (mkResponse 400
         (JObj [("success", JBool false);
                ("message", JStr "Validation error");
                ("errors", JArr (map JStr messages))]),
       st) /\
    In "Password must be at least 6 characters" messages.
Proof.
  intros Hf Hs Hp Hne Hlen.
  destruct (buildStudentData b) as [data|err] eqn:Hb.
  2:{ unfold buildStudentData in Hb.
      destruct (RegisterBody.skills b) as [[items|s]|];
        [discriminate|discriminate|contradiction]. }
  destruct (buildStudentData_Ok b data Hb) as [_ Hbp].
  set (d := applySetters data).
  assert (Hin : In ("password", "Password must be at least 6 characters")
                   (validate lib d)).
  { unfold validate. apply in_or_app. right. apply in_or_app. left.
    unfold d. cbn. rewrite Hbp, Hp. unfold validatePassword.
    rewrite (falsy_nonempty p Hne).
    apply Nat.ltb_lt in Hlen. rewrite Hlen. now left. }
  exists (map snd (validate lib d)). split.
  - unfold register. rewrite Hf, Hb. cbn [Js.bind]. unfold create.
    fold d. destruct (validate lib d) as [|e1 errs] eqn:Hv; [destruct Hin|].
    destruct (StudentData.email d), (StudentData.password d),
             (StudentData.fullName d); reflexivity.
  - change "Password must be at least 6 characters"
      with (snd ("password", "Password must be at least 6 characters")).
    now apply in_map.
Qed.

Lemma register_short_password_400_witness :
  let b := RegisterBody.mk (Some "bob@example.com") (Some "abc")
             (Some "Bob") (Some "2 Side St") (Some "male")
             (Some "2000-01-01") (Some "5550101") (Some "BA")
             (Some "Town College") None None (Some (SkillsArray ["js"]))
             None None None None None None None None in
  register Fixture.cfg Fixture.lib Fixture.env1 Fixture.store1 b
  = (mkResponse 400
       (JObj [("success", JBool false);
              ("message", JStr "Validation error");
              ("errors",
               JArr [JStr "Password must be at least 6 characters"])]),
     Fixture.store1).
Proof.
  intro b.
  destruct (register_short_password_400 Fixture.cfg Fixture.lib Fixture.env1
              Fixture.store1 b "abc" eq_refl)
    as (messages & Hr & _).
  - discriminate.
  - reflexivity.
  - discriminate.
  - simpl. lia.
  - reflexivity.
Defined.

(** ** Deletion *)

Lemma removeFirst_In (p : Student -> bool) (st : Store) (x : Student) :
  In x (removeFirst p st) -> In x st.
Proof.
  induction st as [|s st IH]; simpl; trivial.
  destruct (p s); simpl; intuition.
Qed.

Lemma removeFirst_keep (p : Student -> bool) (st : Store) (x : Student) :
  In x st -> p x = false -> In x (removeFirst p st).
Proof.
  induction st as [|s st IH]; simpl; trivial.
  destruct (p s) eqn:Hp; simpl; intros [->|Hin] Hx; auto. congruence.
Qed.

Lemma removeFirst_none (p : Student -> bool) (st : Store) :
  find p st = None -> removeFirst p st = st.
Proof.
  induction st as [|s st IH]; simpl; trivial.
  destruct (p s); [discriminate|]. intro H. f_equal. now apply IH.
Qed.

Lemma updateFirst_none (p : Student -> bool) (f : Student -> Student)
    (st : Store) :
  find p st = None -> updateFirst p f st = st.
Proof.
  induction st as [|s st IH]; simpl; trivial.
  destruct (p s); [discriminate|]. intro H. f_equal. now apply IH.
Qed.

Lemma find_all_false {A} (p : A -> bool) (l : list A) :
  (forall x, In x l -> p x = false) -> find p l = None.
Proof.
  induction l as [|a l IH]; simpl; trivial. intro H.
  rewrite (H a) by auto. apply IH. auto.
Qed.

Lemma findById_removeFirst (st : Store) (oid : ObjectId) :
  NoDup (map _id st) ->
  findById (removeFirst (fun s => String.eqb (_id s) oid) st) oid = None.
Proof.
  unfold findById. induction st as [|s st IH]; simpl; trivial.
  intro Hnd. inversion Hnd as [|? ? Hnot Hnd']; subst.
  destruct (String.eqb (_id s) oid) eqn:E.
  - apply String.eqb_eq in E. subst oid. apply find_all_false.
    intros x Hx. apply String.eqb_neq. intro Heq. apply Hnot.
    rewrite <- Heq. now apply in_map.
  - simpl. rewrite E. now apply IH.
Qed.

Lemma NoDup_map_removeFirst {B} (g : Student -> B) (p : Student -> bool)
    (st : Store) :
  NoDup (map g st) -> NoDup (map g (removeFirst p st)).
Proof.
  induction st as [|s st IH]; simpl; trivial.
  intro Hnd. inversion Hnd as [|? ? Hnot Hnd']; subst.
  destruct (p s); simpl; trivial. constructor; auto.
  intro Hin. apply Hnot. apply in_map_iff in Hin.
  destruct Hin as (x & Hx & Hxin). rewrite <- Hx.
  apply in_map. now apply removeFirst_In in Hxin.
Qed.

Lemma Forall_removeFirst (P : Student -> Prop) (p : Student -> bool)
    (st : Store) :
  Forall P st -> Forall P (removeFirst p st).
Proof.
  rewrite !Forall_forall. intros H x Hx. apply H.
  now apply removeFirst_In in Hx.
Qed.

(** X13. Deleting a stored student, in a store with unique ids and emails,
    answers 200 and removes that student and no other: a lookup by the id
    finds nothing, every other student is still there, and the email is
    free again, no lookup under any of its spellings finding a student. *)
Theorem deleteStudent_removes_one
    (castObjectId : string -> Js.Result ObjectId) (st : Store)
    (id : string) (oid : ObjectId) (a : Student) :
  castObjectId id = Js.Ok oid ->
  findById st oid = Some a ->
  uniqueKeys st ->
  let r := deleteStudent castObjectId st id in
  fst r = mkResponse 200
            (JObj [("success", JBool true);
                   ("message", JStr "Student deleted successfully")]) /\
  findById (snd r) oid = None /\
  (forall x, In x (snd r) <-> In x st /\ _id x <> oid) /\
  (forall e, castEmail e = email a -> findOne (snd r) (Some e) = None).
Proof.
  intros Hcast Hf [Hid Hem] r. unfold r, deleteStudent.
  rewrite Hcast, Hf. cbn [fst snd].
  pose proof (findById_removeFirst st oid Hid) as Hnone.
  destruct (findById_In st oid a Hf) as [Hin Ha].
  assert (Hmem : forall x,
             In x (removeFirst (fun s => String.eqb (_id s) oid) st) <->
             In x st /\ _id x <> oid).
  { intro x. split.
    - intro Hx. split; [now apply removeFirst_In in Hx|].
      apply String.eqb_neq.
      exact (find_none _ _ Hnone x Hx).
    - intros [Hx Hne]. apply removeFirst_keep; trivial.
      now apply String.eqb_neq. }
  split; [reflexivity|]. split; [exact Hnone|]. split; [exact Hmem|].
  intros e He. cbn [findOne]. apply find_all_false.
  intros x Hx. apply Hmem in Hx. destruct Hx as [Hx Hne].
    apply String.eqb_neq. intro Heq. apply Hne.
    rewrite <- Ha. f_equal.
    apply (NoDup_map_inj email st x a Hem Hx Hin). congruence.
Qed.

Lemma deleteStudent_removes_one_witness :
  deleteStudent Demo.castObjectId Fixture.store1 "64b000000000000000000001"
  = (mkResponse 200
       (JObj [("success", JBool true);
              ("message", JStr "Student deleted successfully")]),
     []).
Proof.
  destruct (deleteStudent_removes_one Demo.castObjectId Fixture.store1
              "64b000000000000000000001" "64b000000000000000000001"
              Fixture.storedAna eq_refl eq_refl)
    as (Hr & _).
  - split; repeat constructor; simpl; tauto.
  - reflexivity.
Defined.

(** X14. Deleting a student revokes no token.  With a token the middleware
    still accepts, whose [userId] casts to the ObjectId of the deleted
    student, after the deletion a logout is answered 200 although it writes
    nothing, and a well-formed change of password is answered 404. *)
Theorem token_outlives_deleted_student
    (cfg : Config) (lib : Libraries)
    (castObjectId : string -> Js.Result ObjectId) (env : Env) (st : Store)
    (id : string) (oid : ObjectId) (hdr : option string) (user : Decoded)
    (newPassword : string) :
  NoDup (map _id st) ->
  castObjectId id = Js.Ok oid ->
  castToObjectId lib (userId user) = Js.Ok oid ->
  authenticateToken cfg lib hdr (now env) = Next user ->
  6 <= length newPassword ->
  let st' := snd (deleteStudent castObjectId st id) in
  handle cfg lib env st' (PostLogout hdr)
  = (mkResponse 200
       (JObj [("success", JBool true);
              ("message", JStr "Logged out successfully")]), st') /\
  handle cfg lib env st'
    (PostChangePassword hdr
       (ChangePasswordBody.mk (Some newPassword) (Some newPassword)))
  = (failure 404 "Student not found", st').
Proof.
  intros Hnd Hcast Huser Hauth Hlen st'.
  assert (Hnone : findById st' oid = None).
  { unfold st', deleteStudent. rewrite Hcast.
    destruct (findById st oid) eqn:Hf; cbn [snd]; trivial.
    now apply findById_removeFirst. }
  cbn [handle]. unfold protected. rewrite Hauth. split.
  - unfold logout, findByIdAndUpdate_lastLogoutAt. rewrite Huser.
    now rewrite (updateFirst_none _ _ st' Hnone).
  - unfold changePassword.
    cbn [ChangePasswordBody.newPassword ChangePasswordBody.confirmPassword].
    assert (Hne : newPassword <> "") by (intros ->; simpl in Hlen; lia).
    rewrite (falsy_nonempty _ Hne), String.eqb_refl. cbn [orb negb].
    apply Nat.ltb_ge in Hlen. now rewrite Hlen, Huser, Hnone.
Qed.

Lemma token_outlives_deleted_student_witness :
  let st' := snd (deleteStudent Demo.castObjectId Fixture.store1
                    "64b000000000000000000001") in
  fst (handle Fixture.cfg Fixture.lib Fixture.env1 st'
         (PostChangePassword (Some "Bearer token-64b000000000000000000001")
            (ChangePasswordBody.mk (Some "secret2") (Some "secret2"))))
  = failure 404 "Student not found".
Proof.
  intro st'.
  destruct (token_outlives_deleted_student Fixture.cfg Fixture.lib
              Demo.castObjectId Fixture.env1 Fixture.store1
              "64b000000000000000000001" "64b000000000000000000001"
              (Some "Bearer token-64b000000000000000000001")
              Fixture.ana "secret2")
    as [_ H].
  - repeat constructor. simpl. tauto.
  - vm_compute. reflexivity.
  - vm_compute. reflexivity.
  - vm_compute. reflexivity.
  - simpl. lia.
  - fold st' in H. now rewrite H.
Defined.

(** ** Invariants over all the routes *)

(** Every stored email matches the pattern of the schema. *)
Definition emailsValid (st : Store) : Prop :=
  Forall (fun s => Js.matchesEmail (email s) = true) st.

Lemma validateEmail_nil (e : string) :
  validateEmail (Some e) = [] -> Js.matchesEmail e = true.
Proof.
  unfold validateEmail. destruct (Js.falsy (Some e)); [discriminate|].
  now destruct (Js.matchesEmail e).
Qed.

Lemma effect_emailsValid (lib : Libraries) (env : Env) (subm : list string)
    (st st' : Store) :
  Effect lib env subm st st' -> emailsValid st -> emailsValid st'.
Proof.
  unfold emailsValid.
  intros [->|data s p0 _ _ Hc|student d s' Hin Ht _ Hs|id ->] Hst; trivial.
  - apply create_Ok in Hc. destruct Hc as (Hv & _ & Hd & -> & _).
    apply Forall_app. split; trivial. constructor; [|constructor].
    pose proof (f_equal StudentData.email Hd) as E. cbn [dataOf] in E.
    cbn [StudentData.email] in E.
    unfold validate in Hv. apply app_eq_nil in Hv. destruct Hv as [Hv _].
    rewrite <- E in Hv. now apply validateEmail_nil.
  - apply save_Ok in Hs.
    destruct Hs as (_ & pw & _ & [(_ & _ & ->)|(-> & ->)]); trivial.
    apply updateFirst_Forall; trivial. intros x _ _ _.
    change (Js.matchesEmail (email (set_password pw (doc d))) = true).
    rewrite (tracks_email student d pw Ht).
    rewrite Forall_forall in Hst. now apply Hst.
  - apply updateFirst_Forall; trivial.
Qed.

(** What the routes keep true of the store. *)
Definition storeInvariant (st : Store) : Prop :=
  uniqueKeys st /\ castStore st /\ emailsValid st.

Lemma serve_storeInvariant (cfg : Config) (lib : Libraries)
    (castObjectId : string -> Js.Result ObjectId) (env : Env) (st : Store)
    (req : AuthRequest) :
  storeInvariant st ->
  storeInvariant (snd (serve cfg lib castObjectId env st req)).
Proof.
  intros (Hk & Hc & Hv). destruct req as [r|e|id]; cbn [serve snd].
  - pose proof (handle_effect cfg lib env st r) as He.
    repeat split.
    + exact (proj1 (effect_uniqueKeys lib env _ _ _ He Hk)).
    + exact (proj2 (effect_uniqueKeys lib env _ _ _ He Hk)).
    + exact (effect_castStore lib env _ _ _ He Hc).
    + exact (effect_emailsValid lib env _ _ _ He Hv).
  - repeat split; trivial; apply Hk.
  - unfold deleteStudent.
    destruct (castObjectId id) as [oid|]; [|repeat split; trivial; apply Hk].
    destruct (findById st oid); [|repeat split; trivial; apply Hk].
    cbn [snd]. destruct Hk as [Hi He]. repeat split.
    + now apply NoDup_map_removeFirst.
    + now apply NoDup_map_removeFirst.
    + now apply Forall_removeFirst.
    + now apply Forall_removeFirst.
Qed.

Lemma served_storeInvariant (cfg : Config) (lib : Libraries)
    (castObjectId : string -> Js.Result ObjectId) (st : Store) :
  served cfg lib castObjectId st -> storeInvariant st.
Proof.
  induction 1 as [|st env req _ IH].
  - repeat split; constructor.
  - now apply serve_storeInvariant.
Qed.

Lemma fixture_served :
  served Fixture.cfg Fixture.lib Demo.castObjectId Fixture.store1.
Proof.
  exact (served_step Fixture.cfg Fixture.lib Demo.castObjectId []
           Fixture.env0 (Lifecycle (PostRegister Fixture.registerAna))
           (served_empty Fixture.cfg Fixture.lib Demo.castObjectId)).
Qed.

(** X15. In every store reached through the lifecycle routes, [check-email]
    and the deletion of students, no two students share an [_id] and no two
    share an email. *)
Theorem served_unique_keys (cfg : Config) (lib : Libraries)
    (castObjectId : string -> Js.Result ObjectId) (st : Store) :
  served cfg lib castObjectId st ->
  NoDup (map _id st) /\ NoDup (map email st).
Proof.
  intro H. exact (proj1 (served_storeInvariant cfg lib castObjectId st H)).
Qed.

Lemma served_unique_keys_witness :
  let st := snd (serve Fixture.cfg Fixture.lib Demo.castObjectId
                   Fixture.env1 Fixture.store2
                   (Lifecycle (PostRegister Fixture.registerAna))) in
  map email st = ["ana@example.com"; "ben@example.com"] /\
  NoDup (map _id st) /\ NoDup (map email st).
Proof.
  intro st. split; [vm_compute; reflexivity|].
  apply (served_unique_keys Fixture.cfg Fixture.lib Demo.castObjectId st).
  apply served_step.
  apply (served_step Fixture.cfg Fixture.lib Demo.castObjectId
           Fixture.store1 Fixture.env1
           (Lifecycle (PostRegister Fixture.registerBen))).
  apply (served_step Fixture.cfg Fixture.lib Demo.castObjectId []
           Fixture.env0 (Lifecycle (PostRegister Fixture.registerAna))).
  apply served_empty.
Defined.

(** X16. In every such store each stored email is in the form the setters
    give: lower-case, without white space around it, and matching the
    pattern of the schema; a lookup under the stored email returns the
    student that has it. *)
Theorem served_emails_normalised (cfg : Config) (lib : Libraries)
    (castObjectId : string -> Js.Result ObjectId) (st : Store)
    (a : Student) :
  served cfg lib castObjectId st ->
  In a st ->
  Js.toLowerCase (email a) = email a /\
  Js.trim (email a) = email a /\
  Js.matchesEmail (email a) = true /\
  findOne st (Some (email a)) = Some a /\
  findByEmail st (email a) = Some a.
Proof.
  intros Hs Hin.
  destruct (served_storeInvariant cfg lib castObjectId st Hs)
    as ([_ Hnd] & Hc & Hv).
  unfold castStore in Hc. unfold emailsValid in Hv.
  rewrite Forall_forall in Hc, Hv.
  destruct (Hc a Hin) as [e0 He0].
  assert (Hl : Js.toLowerCase (email a) = email a).
  { rewrite He0, castEmail_setter_order. apply toLowerCase_idempotent. }
  assert (Ht : Js.trim (email a) = email a).
  { rewrite He0. unfold castEmail. apply trim_idempotent. }
  assert (Hcast : castEmail (email a) = email a).
  { unfold castEmail. now rewrite Hl, Ht. }
  assert (Hf : findOne st (Some (email a)) = Some a).
  { cbn [findOne]. rewrite Hcast.
    exact (find_unique email String.eqb st a (email a) String.eqb_eq
             Hnd Hin eq_refl). }
  repeat split; auto.
  unfold findByEmail. now rewrite Hl.
Qed.

Lemma served_emails_normalised_witness :
  findByEmail Fixture.store1 "ana@example.com" = Some Fixture.storedAna.
Proof.
  exact (proj2 (proj2 (proj2 (proj2
           (served_emails_normalised Fixture.cfg Fixture.lib
              Demo.castObjectId Fixture.store1 Fixture.storedAna
              fixture_served (or_introl eq_refl)))))).
Defined.

(** ** The contact form *)

Lemma existsb_pointwise {A} (f g : A -> bool) (l : list A) :
  (forall x, f x = g x) -> existsb f l = existsb g l.
Proof. intro H. induction l as [|a l IH]; simpl; congruence. Qed.

Lemma forallb_mapped {A B} (f : B -> bool) (g : A -> B) (l : list A) :
  forallb f (map g l) = forallb (fun x => f (g x)) l.
Proof. induction l as [|a l IH]; simpl; congruence. Qed.

Lemma forallb_pointwise {A} (f g : A -> bool) (l : list A) :
  (forall x, f x = g x) -> forallb f l = forallb g l.
Proof. intro H. induction l as [|a l IH]; simpl; congruence. Qed.

Lemma toList_toLowerCase (s : string) :
  Js.toList (Js.toLowerCase s) = map Js.lowerChar (Js.toList s).
Proof. induction s as [|c s IH]; simpl; congruence. Qed.

Lemma eqb_lowerChar_at (c : ascii) :
  Ascii.eqb (Js.lowerChar c) "@" = Ascii.eqb c "@".
Proof. destruct c as [[] [] [] [] [] [] [] []]; reflexivity. Qed.

Lemma eqb_lowerChar_dot (c : ascii) :
  Ascii.eqb (Js.lowerChar c) "." = Ascii.eqb c ".".
Proof. destruct c as [[] [] [] [] [] [] [] []]; reflexivity. Qed.

Lemma nth_lowerChar (cs : list ascii) (i : nat) :
  nth i (map Js.lowerChar cs) "000"%char
  = Js.lowerChar (nth i cs "000"%char).
Proof.
  change "000"%char with (Js.lowerChar "000"%char) at 1. apply map_nth.
Qed.

(** The pattern of the schemas does not tell letter case apart. *)
Lemma matchesEmail_toLowerCase (s : string) :
  Js.matchesEmail (Js.toLowerCase s) = Js.matchesEmail s.
Proof.
  unfold Js.matchesEmail. rewrite toList_toLowerCase, length_map.
  f_equal.
  - rewrite forallb_mapped. apply forallb_pointwise. intro c.
    now rewrite isSpace_lowerChar.
  - apply existsb_pointwise. intro i.
    rewrite nth_lowerChar, eqb_lowerChar_at. f_equal.
    apply existsb_pointwise. intro j.
    now rewrite nth_lowerChar, eqb_lowerChar_dot.
Qed.

Lemma trimEnd_noSpace (s : string) :
  forallb (fun c => negb (Js.isSpace c)) (Js.toList s) = true ->
  Js.trimEnd s = s.
Proof.
  induction s as [|c s IH]; trivial. cbn [Js.toList forallb].
  intro H. apply andb_true_iff in H. destruct H as [Hc Hs].
  rewrite trimEnd_cons, (IH Hs).
  destruct s; trivial. apply negb_true_iff in Hc. now rewrite Hc.
Qed.

Lemma trim_noSpace (s : string) :
  forallb (fun c => negb (Js.isSpace c)) (Js.toList s) = true ->
  Js.trim s = s.
Proof.
  intro H. unfold Js.trim. rewrite trimStart_fixed.
  - now apply trimEnd_noSpace.
  - destruct s as [|c s]; trivial. cbn in H.
    now apply andb_true_iff in H.
Qed.

Lemma matchesEmail_nonempty (s : string) :
  Js.matchesEmail s = true -> s <> "".
Proof. intros H ->. discriminate. Qed.

(** An email the contact route lets through is one the schema accepts, and
    the setters leave of it its lower-case form. *)
Lemma matchesContactEmail_schema (e : string) :
  matchesContactEmail e = true ->
  castEmail (Js.toLowerCase (Js.trim e)) = Js.toLowerCase e /\
  Js.matchesEmail (Js.toLowerCase e) = true.
Proof.
  unfold matchesContactEmail. intro H.
  apply andb_true_iff in H. destruct H as [H Hdot].
  apply andb_true_iff in H. destruct H as [Hsp _].
  assert (Hm : Js.matchesEmail e = true).
  { unfold Js.matchesEmail. now rewrite Hsp, Hdot. }
  split.
  - rewrite (trim_noSpace e Hsp), castEmail_toLowerCase.
    rewrite castEmail_setter_order. now rewrite (trim_noSpace e Hsp).
  - now rewrite matchesEmail_toLowerCase.
Qed.

(** The request has its four fields, each a non-empty string. *)
Definition filledIn (b : ContactBody.t) (name email subject message : string)
  : Prop :=
  b = ContactBody.mk (Some name) (Some email) (Some subject) (Some message)
  /\ name <> "" /\ email <> "" /\ subject <> "" /\ message <> "".

Lemma submitContact_checked (isoString : Date -> string)
    (duplicateKey : string) (env : Env) (messages : list ContactMessage.t)
    (b : ContactBody.t) (name email subject message : string) :
  filledIn b name email subject message ->
  matchesContactEmail email = true ->
  10 <= length (Js.trim message) ->
  submitContact isoString duplicateKey env messages b
  = let contactMessage := newContactMessage env name email subject message in
    match validateContact contactMessage with
    | [] =>
        if existsb (fun m => String.eqb (ContactMessage._id m)
                                        (freshId env)) messages
        then (failureWith 500 "Failed to send message. Please try again."
                (Js.mkError "MongoServerError" duplicateKey []),
              messages)
        else
          (mkResponse 201
             (JObj [("success", JBool true);
                    ("message",
                     JStr "Your message has been sent successfully");
                    ("data",
                     JObj [("id", JStr (ContactMessage._id contactMessage));
                           ("createdAt",
                            JStr (isoString
                                    (ContactMessage.createdAt
                                       contactMessage)))])]),
           (messages ++ [contactMessage])%list)
    | errs =>
        (failureWith 500 "Failed to send message. Please try again."
           (Js.mkError "ValidationError"
              ("ContactMessage validation failed: " ++ joinMessages errs)
              (map snd errs)),
         messages)
    end.
Proof.
  intros (-> & Hn & He & Hs & Hm) Hmatch Hlen. unfold submitContact.
  cbn [ContactBody.name ContactBody.email ContactBody.subject
       ContactBody.message].
  rewrite !falsy_nonempty by assumption. cbn [orb].
  rewrite Hmatch. cbn [negb].
  apply Nat.ltb_ge in Hlen. now rewrite Hlen.
Qed.

(** X17. A contact form whose name or subject is white space only passes
    the route's own checks and fails the validation of the schema: it is
    answered 500, not 400, and no message is stored. *)
Theorem submitContact_blank_name_500 (isoString : Date -> string)
    (duplicateKey : string) (env : Env) (messages : list ContactMessage.t)
    (b : ContactBody.t) (name email subject message : string) :
  filledIn b name email subject message ->
  matchesContactEmail email = true ->
  10 <= length (Js.trim message) ->
  Js.trim name = "" \/ Js.trim subject = "" ->
  exists error,
    submitContact isoString duplicateKey env messages b
    = (mkResponse 500
         (JObj [("success", JBool false);
                ("message", JStr "Failed to send message. Please try again.");
                ("error", JStr (Js.message error))]),
       messages) /\
    Js.name error = "ValidationError".
Proof.
  intros Hb Hmatch Hlen Hblank.
  rewrite (submitContact_checked isoString duplicateKey env messages b
             name email subject message Hb Hmatch Hlen).
  cbv zeta.
  destruct (validateContact (newContactMessage env name email subject message))
    as [|err errs] eqn:Hv.
  - exfalso. unfold validateContact, newContactMessage in Hv. cbn in Hv.
    apply app_eq_nil in Hv. destruct Hv as [Hv1 Hv].
    apply app_eq_nil in Hv. destruct Hv as [_ Hv].
    apply app_eq_nil in Hv. destruct Hv as [Hv3 _].
    destruct Hblank as [E|E]; rewrite E in *; discriminate.
  - eexists. split; reflexivity.
Qed.

Lemma submitContact_blank_name_500_witness :
  status (fst (submitContact (fun _ => "2023-11-14T22:21:40.000Z") "E11000"
                 Fixture.env1 []
                 (ContactBody.mk (Some "   ") (Some "bob@example.com")
                    (Some "Hello") (Some "A question about courses"))))
  = 500.
Proof.
  destruct (submitContact_blank_name_500
              (fun _ => "2023-11-14T22:21:40.000Z") "E11000" Fixture.env1 []
              (ContactBody.mk (Some "   ") (Some "bob@example.com")
                 (Some "Hello") (Some "A question about courses"))
              "   " "bob@example.com" "Hello" "A question about courses")
    as (error & H & _).
  - repeat split; discriminate.
  - reflexivity.
  - simpl. lia.
  - left. reflexivity.
  - rewrite H. reflexivity.
Defined.

(** X18. A contact form with a name and a subject that are not blank, an
    email the route's pattern accepts and a message of at least ten
    characters once trimmed is stored, under an unused id, and answered
    201: the schema's validation cannot fail on it.  The stored message has
    the trimmed texts, the email in lower case, the status [new] and no
    user. *)
Theorem submitContact_stores_message (isoString : Date -> string)
    (duplicateKey : string) (env : Env) (messages : list ContactMessage.t)
    (b : ContactBody.t) (name email subject message : string) :
  filledIn b name email subject message ->
  matchesContactEmail email = true ->
  10 <= length (Js.trim message) ->
  Js.trim name <> "" ->
  Js.trim subject <> "" ->
  existsb (fun m => String.eqb (ContactMessage._id m) (freshId env)) messages
  = false ->
  let stored :=
    ContactMessage.mk (freshId env) (Js.trim name) (Js.toLowerCase email)
      (Js.trim subject) (Js.trim message) None "new" None None None
      (now env) (now env) in
  submitContact isoString duplicateKey env messages b
  = (mkResponse 201
       (JObj [("success", JBool true);
              ("message", JStr "Your message has been sent successfully");
              ("data",
               JObj [("id", JStr (freshId env));
                     ("createdAt", JStr (isoString (now env)))])]),
     (messages ++ [stored])%list).
Proof.
  intros Hb Hmatch Hlen Hn Hs Hfresh stored.
  rewrite (submitContact_checked isoString duplicateKey env messages b
             name email subject message Hb Hmatch Hlen).
  destruct (matchesContactEmail_schema email Hmatch) as [Hcast Hschema].
  assert (Hnew : newContactMessage env name email subject message = stored).
  { unfold newContactMessage, stored.
    now rewrite !trim_idempotent, Hcast. }
  cbv zeta. rewrite Hnew.
  assert (Hv : validateContact stored = []).
  { unfold validateContact, stored.
    cbn [ContactMessage.name ContactMessage.email ContactMessage.subject
         ContactMessage.message].
    apply String.eqb_neq in Hn, Hs. rewrite Hn, Hs, Hschema.
    pose proof (matchesEmail_nonempty _ Hschema) as He.
    apply String.eqb_neq in He. rewrite He.
    assert (Hm : String.eqb (Js.trim message) "" = false).
    { apply String.eqb_neq. intro E. rewrite E in Hlen. simpl in Hlen. lia. }
    apply Nat.ltb_ge in Hlen. now rewrite Hm, Hlen. }
  rewrite Hv, Hfresh. reflexivity.
Qed.

Lemma submitContact_stores_message_witness :
  map ContactMessage.email
    (snd (submitContact (fun _ => "2023-11-14T22:21:40.000Z") "E11000"
            Fixture.env1 []
            (ContactBody.mk (Some " Bob ") (Some "Bob@Example.com")
               (Some "Hello") (Some "  A question about courses  "))))
  = ["bob@example.com"].
Proof.
  rewrite (submitContact_stores_message
             (fun _ => "2023-11-14T22:21:40.000Z") "E11000" Fixture.env1 []
             (ContactBody.mk (Some " Bob ") (Some "Bob@Example.com")
                (Some "Hello") (Some "  A question about courses  "))
             " Bob " "Bob@Example.com" "Hello"
             "  A question about courses  ").
  - reflexivity.
  - repeat split; discriminate.
  - reflexivity.
  - simpl. lia.
  - discriminate.
  - discriminate.
  - reflexivity.
Defined.

(** ** Registration, then login, run *)

Lemma demo_hash_length (p s h : string) :
  bcrypt_hash Demo.lib p s = Js.Ok h -> 6 <= length h.
Proof. cbn. intro H. injection H as <-. cbn. lia. Qed.

Lemma demo_compare_hash (p s h : string) :
  bcrypt_hash Demo.lib p s = Js.Ok h ->
  bcrypt_compare Demo.lib p h = Js.Ok true.
Proof.
  cbn. intro H. injection H as <-. unfold Demo.compare.
  now rewrite String.eqb_refl.
Qed.

Lemma register_then_login_witness :
  status
    (fst (login Fixture.cfg Demo.lib Fixture.env1
            (snd (register Fixture.cfg Demo.lib Fixture.env0 []
                    Fixture.registerAna))
            (LoginBody.mk (Some "ANA@example.com") (Some "secret1"))))
  = 200.
Proof.
  apply (register_then_login Fixture.cfg Demo.lib demo_hash_length
           demo_compare_hash Fixture.env0 Fixture.env1 []
           (snd (register Fixture.cfg Demo.lib Fixture.env0 []
                   Fixture.registerAna))
           Fixture.registerAna
           (fst (register Fixture.cfg Demo.lib Fixture.env0 []
                   Fixture.registerAna))
           "Ana@Example.com" "ANA@example.com" "secret1").
  - apply reachable_empty.
  - reflexivity.
  - reflexivity.
  - reflexivity.
  - reflexivity.
  - reflexivity.
Defined.

(** ** The bearer header *)

(** X20. From a header that is [Bearer ] followed by a token, the middleware
    takes that token, whatever it contains: the request is answered as a
    missing token when the token is empty and is otherwise decided by the
    verification of exactly that token. *)
Theorem authenticateToken_bearer_header
    (cfg : Config) (lib : Libraries) (t : string) (clock : Date) :
  extractToken (Some ("Bearer " ++ t)) = Some t /\
  (t = "" ->
   authenticateToken cfg lib (Some ("Bearer " ++ t)) clock
   = Responded noToken) /\
  (t <> "" ->
   authenticateToken cfg lib (Some ("Bearer " ++ t)) clock
   = verifyAndAttach cfg lib t clock).
Proof.
  assert (He : extractToken (Some ("Bearer " ++ t)) = Some t).
  { unfold extractToken. cbn [option_map].
    rewrite replace_at_prefix by apply prefix_append.
    now rewrite drop_append. }
  repeat split; trivial.
  - intros ->. reflexivity.
  - intro Hne. now apply authenticateToken_token.
Qed.

(** ** The skills of a registration *)

Lemma split_length (sep : ascii) (s : string) :
  List.length (Js.split sep s) = S (count_occ ascii_dec (Js.toList s) sep).
Proof.
  induction s as [|c s IH]; trivial. cbn [Js.split Js.toList].
  destruct (Ascii.eqb c sep) eqn:E.
  - apply Ascii.eqb_eq in E. subst c. rewrite count_occ_cons_eq by trivial.
    simpl. now rewrite IH.
  - apply Ascii.eqb_neq in E. rewrite count_occ_cons_neq by trivial.
    rewrite <- IH. now destruct (Js.split sep s).
Qed.

Lemma split_no_separator (sep : ascii) (s : string) :
  Forall (fun x => ~ In sep (Js.toList x)) (Js.split sep s).
Proof.
  induction s as [|c s IH]; cbn [Js.split].
  - constructor; [simpl; tauto|constructor].
  - destruct (Ascii.eqb c sep) eqn:E.
    + constructor; [simpl; tauto|exact IH].
    + apply Ascii.eqb_neq in E.
      destruct (Js.split sep s) as [|h l].
      * constructor; [|constructor]. simpl. intuition.
      * inversion IH; subst. constructor; trivial. simpl. intuition.
Qed.

Lemma trimStart_In (c : ascii) (s : string) :
  In c (Js.toList (Js.trimStart s)) -> In c (Js.toList s).
Proof.
  induction s as [|a s IH]; cbn; trivial.
  destruct (Js.isSpace a); cbn; auto.
Qed.

Lemma trimEnd_In (c : ascii) (s : string) :
  In c (Js.toList (Js.trimEnd s)) -> In c (Js.toList s).
Proof.
  induction s as [|a s IH]; trivial. rewrite trimEnd_cons.
  destruct (Js.trimEnd s) as [|d r].
  - destruct (Js.isSpace a); cbn; tauto.
  - cbn [Js.toList]. intros [->|H]; [now left|right; now apply IH].
Qed.

(** What the split of a string of skills gives. *)
Lemma split_trimmed (text : string) :
  List.length (map Js.trim (Js.split "," text))
  = S (count_occ ascii_dec (Js.toList text) ","%char) /\
  Forall (fun x => Js.trim x = x /\ ~ In ","%char (Js.toList x))
         (map Js.trim (Js.split "," text)).
Proof.
  split.
  - now rewrite length_map, split_length.
  - apply Forall_map.
    eapply Forall_impl; [|apply (split_no_separator "," text)].
    intros x Hx. split; [apply trim_idempotent|].
    intro Hin. apply Hx. unfold Js.trim in Hin.
    now apply trimStart_In, trimEnd_In.
Qed.

(** X21. After a registration answered 201 the skills of the new student
    are those of the request, which the validators of the schema have let
    through: sent as one string, they are its pieces between the commas,
    one more than there are commas, each without a comma and without white
    space around it; sent as an array, they are stored as they are.  No
    registration without skills is answered 201. *)
Theorem register_201_skills
    (cfg : Config) (lib : Libraries) (env : Env) (st st' : Store)
    (b : RegisterBody.t) (r : Response) :
  register cfg lib env st b = (r, st') ->
  status r = 201 ->
  exists s,
    st' = (st ++ [s])%list /\
    validateProfile lib (personalInfo s) (education s) (skills s)
      (coursesAndCertifications s) (trainingAndInternships s) = [] /\
    match RegisterBody.skills b with
    | Some (SkillsString text) =>
        skills s = map Js.trim (Js.split "," text) /\
        List.length (skills s)
        = S (count_occ ascii_dec (Js.toList text) ","%char) /\
        Forall (fun x => Js.trim x = x /\ ~ In ","%char (Js.toList x))
               (skills s)
    | Some (SkillsArray items) => skills s = items
    | None => False
    end.
Proof.
  intros Hreg H201.
  destruct (register_created cfg lib env st st' b r Hreg H201)
    as (data & s & Hb & Hc).
  apply create_Ok in Hc. destruct Hc as (Hv & _ & Hd & Hst & _).
  exists s. split; [exact Hst|].
  assert (Hsk : skills s = StudentData.skills data)
    by exact (f_equal StudentData.skills Hd).
  split.
  - unfold validate in Hv.
    apply app_eq_nil in Hv. destruct Hv as [_ Hv].
    apply app_eq_nil in Hv. destruct Hv as [_ Hv].
    apply app_eq_nil in Hv. destruct Hv as [_ Hv].
    pose proof (f_equal StudentData.personalInfo Hd) as E1.
    pose proof (f_equal StudentData.education Hd) as E2.
    pose proof (f_equal StudentData.coursesAndCertifications Hd) as E3.
    pose proof (f_equal StudentData.trainingAndInternships Hd) as E4.
    cbn in E1, E2, E3, E4, Hv. rewrite E1, E2, E3, E4, Hsk. exact Hv.
  - unfold buildStudentData in Hb.
    destruct (RegisterBody.skills b) as [[items|text]|];
      cbn [Js.bind] in Hb; [| |discriminate];
      injection Hb as <-; cbn [StudentData.skills] in Hsk; trivial.
    rewrite Hsk. destruct (split_trimmed text) as [Hlen Hall].
    now repeat split.
Qed.

Lemma register_201_skills_witness :
  map skills
    (snd (register Fixture.cfg Fixture.lib Fixture.env0 []
            Fixture.registerAna))
  = [["rocq"; "js"]].
Proof.
  destruct (register_201_skills Fixture.cfg Fixture.lib Fixture.env0 []
              (snd (register Fixture.cfg Fixture.lib Fixture.env0 []
                      Fixture.registerAna))
              Fixture.registerAna
              (fst (register Fixture.cfg Fixture.lib Fixture.env0 []
                      Fixture.registerAna)) eq_refl eq_refl)
    as (s & Hst & _ & Hsk & _).
  cbn [app] in Hst. rewrite Hst. cbn [map]. now rewrite Hsk.
Defined.
